(** * A shallow embedding of [app.py], the stock market dashboard.

    The script fetches the list of most active tickers when the module is
    loaded, and registers one callback, [update_graph], which scrapes a
    price-history table and draws it.  Everything the script does goes
    through third-party libraries (requests, pandas, datetime, plotly): the
    libraries' functions are the fields of an environment record [Env], the
    script's own lines are the definitions below.

    Effects are explicit: a computation takes the trace of the library calls
    made so far and returns either a value or a raised exception, together
    with the extended trace. *)

From Stdlib Require Import String Ascii List ZArith QArith Lia Bool Arith.
From Stdlib Require Import DecimalString DecimalPos DecimalZ.
Import ListNotations.
Open Scope string_scope.
Open Scope list_scope.
Open Scope Z_scope.

Set Implicit Arguments.

(** ** Python values the script handles *)

(** Exceptions, by class. *)
Inductive exn : Type :=
| ValueError
| IndexError
| KeyError
| AttributeError
| RequestException
| OtherError (name : string).

Inductive Result (A : Type) : Type :=
| Ok (a : A)
| Raise (e : exn).
Arguments Ok {A} a.
Arguments Raise {A} e.

(** A callback argument is [None] or a string. *)
Definition pyval := option string.

(** Python truthiness of such a value: [None] and [''] are falsy. *)
Definition truthy (v : pyval) : bool :=
  match v with
  | None => false
  | Some s => negb (String.eqb s "")
  end.

(** The text of a callback argument that passed the guard. *)
Definition text_of (v : pyval) : string :=
  match v with
  | None => ""
  | Some s => s
  end.

(** [str(n)] for an integer. *)
Definition str (n : Z) : string := NilZero.string_of_int (Z.to_int n).

(** [int(x)] for a float, carried as a rational: truncation toward zero. *)
Definition int (x : Q) : Z := Z.quot (Qnum x) (Zpos (Qden x)).

(** A naive [datetime] at midnight, as [strptime] returns it for a format
    with date fields only. *)
Record datetime : Type := mk_datetime
  { year : Z; month : Z; day : Z }.

(** ** Tables *)

(** A cell of a table as [pd.read_html] returns it: text, a number or a
    missing value. *)
Inductive cell : Type :=
| CStr (s : string)
| CNum (q : Q)
| CNaN.

(** ** Library calls that are observable from outside *)

Inductive event : Type :=
| HttpGet (url : string) (hdrs : list (string * string)) (timeout : option Z)
| ReadHtml (page : string).

Definition trace := list event.

(** The requests for one address, and all requests, among some events. *)
Definition is_get (url : string) (e : event) : bool :=
  match e with
  | HttpGet u _ _ => String.eqb u url
  | ReadHtml _ => false
  end.

Definition is_request (e : event) : bool :=
  match e with
  | HttpGet _ _ _ => true
  | ReadHtml _ => false
  end.

(** What a computation started at [t] and ended at [t'] added. *)
Definition new_events (t t' : trace) : trace := skipn (length t) t'.

(** ** The libraries *)

Record Env : Type := mk_env
  { (** [requests.get(url, headers=...).text]: the body of the response,
        which may depend on everything that happened before. *)
    requests_get : trace -> string -> list (string * string) -> Result string;
    (** [pd.read_html(text)]: the tables of a page. *)
    read_html : string -> Result (list (list (string * list cell)));
    (** [datetime.strptime(s, fmt)]; [None] stands for its [ValueError]. *)
    strptime : string -> string -> option datetime;
    (** [d.timestamp()], seconds since the epoch in local time; it raises on
        the dates the platform cannot convert. *)
    timestamp : datetime -> Result Q;
    (** what [pd.to_numeric] makes of a string, if anything. *)
    parse_numeric : string -> option Q;
    (** [pd.to_datetime(series)]. *)
    to_datetime : list cell -> Result (list (option Z)) }.

(** ** Computations *)

Definition M (A : Type) : Type := trace -> Result A * trace.

Definition ret {A} (a : A) : M A := fun t => (Ok a, t).

Definition raise {A} (e : exn) : M A := fun t => (Raise e, t).

Definition bind {A B} (m : M A) (k : A -> M B) : M B :=
  fun t =>
    match m t with
    | (Ok a, t') => k a t'
    | (Raise e, t') => (Raise e, t')
    end.

Definition lift {A} (r : Result A) : M A := fun t => (r, t).

Definition emit (e : event) : M unit := fun t => (Ok tt, t ++ [e]).

Definition get_trace : M trace := fun t => (Ok t, t).

Notation "x <- m ;; k" := (bind m (fun x => k))
  (at level 61, m at next level, right associativity).
Notation "m ;;; k" := (bind m (fun _ => k))
  (at level 61, right associativity).

(** ** Data frames

    A frame is its columns in order, each with its label.  What is in a
    column is a parameter: [pd.read_html] yields columns of cells, the
    script then turns one of them into a datetime column. *)

Section Frames.
Variable A : Type.

Definition frame : Type := list (string * A).

Definition labels (df : frame) : list string := map fst df.

Definition has_label (label : string) (c : string * A) : bool :=
  String.eqb (fst c) label.

(** [df[label]]: the column with that label.  No such column is a
    [KeyError]; several select a frame, which has none of the methods of a
    column that the script goes on to call. *)
Definition getitem (label : string) (df : frame) : Result A :=
  match filter (has_label label) df with
  | [] => Raise KeyError
  | [c] => Ok (snd c)
  | _ :: _ :: _ => Raise AttributeError
  end.

(** [df.columns = names]: pandas refuses a list of another length. *)
Definition set_columns (names : list string) (df : frame) : Result frame :=
  if Nat.eqb (length names) (length df)
  then Ok (combine names (map snd df))
  else Raise ValueError.

(** [df.iloc[:, 1:] = df.iloc[:, 1:].apply(f)]: every column but the first
    goes through [f]. *)
Definition iloc_from_1_apply (f : A -> A) (df : frame) : frame :=
  firstn 1 df ++ map (fun c => (fst c, f (snd c))) (skipn 1 df).

(** [tables[0]]. *)
Definition first_table (tables : list frame) : Result frame :=
  match tables with
  | [] => Raise IndexError
  | df :: _ => Ok df
  end.
End Frames.

(** A column once the script is done with it: cells, or datetimes in
    nanoseconds since the epoch with [None] for [NaT]. *)
Inductive Series : Type :=
| Cells (l : list cell)
| Datetimes (l : list (option Z)).

Definition RawFrame : Type := frame (list cell).
Definition DataFrame : Type := frame Series.

(** [df[label] = pd.to_datetime(...)] on a frame of cells: the column with
    that label is replaced where it stands; a new label is added last. *)
Definition setitem_datetimes (label : string) (ds : list (option Z))
    (df : RawFrame) : DataFrame :=
  let put (c : string * list cell) : string * Series :=
    if has_label label c then (fst c, Datetimes ds) else (fst c, Cells (snd c)) in
  if existsb (has_label label) df
  then map put df
  else map put df ++ [(label, Datetimes ds)].

(** ** Figures *)

(** [go.Scatter(x=..., y=..., mode=...)]. *)
Record Scatter : Type := mk_scatter
  { sc_x : Series; sc_y : Series; sc_mode : string }.

(** The layout properties the script sets; [None] is "not set". *)
Record Layout : Type := mk_layout
  { title : option string;
    title_x : option Q;
    width : option Z;
    height : option Z;
    template : option string }.

Record Figure : Type := mk_figure
  { fig_data : list Scatter; fig_layout : Layout }.

Definition no_layout : Layout := mk_layout None None None None None.

(** [go.Figure(data=traces)]. *)
Definition go_Figure (traces : list Scatter) : Figure :=
  mk_figure traces no_layout.

(** [fig.add_trace(tr)]. *)
Definition add_trace (tr : Scatter) (fig : Figure) : Figure :=
  mk_figure (fig_data fig ++ [tr]) (fig_layout fig).

Definition override {A} (new old : option A) : option A :=
  match new with
  | Some a => Some a
  | None => old
  end.

(** [fig.update_layout(k=v, ...)]: the keywords given replace the properties of
    the same name, the others stay. *)
Definition update_layout (kw : Layout) (fig : Figure) : Figure :=
  let l := fig_layout fig in
  mk_figure (fig_data fig)
    (mk_layout (override (title kw) (title l))
               (override (title_x kw) (title_x l))
               (override (width kw) (width l))
               (override (height kw) (height l))
               (override (template kw) (template l))).

(** ** The script *)

Section Script.
Variable E : Env.

(** Lines 20 to 23. *)
Definition headers : list (string * string) :=
  [("User-Agent",
    "Mozilla/5.0 (Windows NT 10.0; Win64; x64) AppleWebKit/537.36 (KHTML, like Gecko) Chrome/91.0.4472.124 Safari/537.36")].

Definition url_stocks : string :=
  "https://finance.yahoo.com/markets/stocks/most-active/?start=0&count=100".

(** [requests.get(url, headers=headers).text]: one request, without a
    timeout, answered by the network as it is at that moment. *)
Definition get_text (url : string) : M string :=
  t <- get_trace ;;
  emit (HttpGet url headers None) ;;;
  lift (requests_get E t url headers).

(** [pd.read_html(page)]. *)
Definition pd_read_html (page : string) : M (list RawFrame) :=
  emit (ReadHtml page) ;;;
  lift (read_html E page).

(** Line 24, run when the module is loaded:
    [pd.read_html(requests.get(url_stocks, headers=headers).text)[0]['Symbol'].to_list()]. *)
Definition load_stocks : M (list cell) :=
  page <- get_text url_stocks ;;
  tables <- pd_read_html page ;;
  table <- lift (first_table tables) ;;
  lift (getitem "Symbol" table).

(** Lines 30 to 38. *)
Definition common_layout (fig : Figure) : Figure :=
  update_layout
    (mk_layout None (Some (1 # 2)%Q) (Some 800) (Some 600) (Some "plotly_white"))
    fig.

(** Lines 42 to 44: the placeholder before the common layout. *)
Definition loading_figure : Figure :=
  let fig := go_Figure [] in
  let fig := add_trace (mk_scatter (Cells []) (Cells []) "lines") fig in
  update_layout (mk_layout (Some "Loading Data...") None None None None) fig.

(** Lines 40 to 45. *)
Definition empty_figure : Figure :=
  let fig := loading_figure in
  common_layout fig.

(** [pd.to_numeric(_, errors='coerce')] on one cell. *)
Definition to_numeric_coerce (c : cell) : cell :=
  match c with
  | CStr s =>
      match parse_numeric E s with
      | Some q => CNum q
      | None => CNaN
      end
  | CNum q => CNum q
  | CNaN => CNaN
  end.

(** [datetime.strptime(s, fmt)]. *)
Definition datetime_strptime (s fmt : string) : M datetime :=
  match strptime E s fmt with
  | Some d => ret d
  | None => raise ValueError
  end.

Definition history_columns : list string :=
  ["Date"; "Open"; "High"; "Low"; "Close"; "Adj Close"; "Volume"].

(** Line 100. *)
Definition url_history (symbol : string) (period1 period2 : Z) : string :=
  ("https://finance.yahoo.com/quote/" ++ symbol ++ "/history/?period1="
     ++ str period1 ++ "&period2=" ++ str period2)%string.

(** Lines 97 to 105 of [update_graph]: the price-history table. *)
Definition history_table (symbol start_date end_date : string) : M DataFrame :=
  d1 <- datetime_strptime start_date "%Y-%m-%d" ;;
  ts1 <- lift (timestamp E d1) ;;
  let period1 := int ts1 in
  d2 <- datetime_strptime end_date "%Y-%m-%d" ;;
  ts2 <- lift (timestamp E d2) ;;
  let period2 := int ts2 in
  page <- get_text (url_history symbol period1 period2) ;;
  tables <- pd_read_html page ;;
  data <- lift (first_table tables) ;;
  data <- lift (set_columns history_columns data) ;;
  let data := iloc_from_1_apply (map to_numeric_coerce) data in
  dates <- lift (getitem "Date" data) ;;
  dates <- lift (to_datetime E dates) ;;
  ret (setitem_datetimes "Date" dates data).

(** Lines 106 to 112 of [update_graph]: the figure drawn from the table, as
    it is before the common layout. *)
Definition sized_figure (symbol : string) (data : DataFrame) : M Figure :=
  x <- lift (getitem "Date" data) ;;
  y <- lift (getitem "Adj Close" data) ;;
  let fig := go_Figure [mk_scatter x y "lines"] in
  let fig := update_layout
               (mk_layout (Some ("Stock Prices: " ++ symbol)%string) None None None None)
               fig in
  let fig := update_layout
               (mk_layout None (Some (1 # 2)%Q) (Some 600) (Some 400) None)
               fig in
  ret fig.

(** Lines 106 to 114 of [update_graph]. *)
Definition history_figure (symbol : string) (data : DataFrame) : M Figure :=
  fig <- sized_figure symbol data ;;
  ret (common_layout fig).

(** Lines 93 to 114. *)
Definition update_graph (symbol start_date end_date : pyval) : M Figure :=
  if negb (truthy symbol) || negb (truthy start_date) || negb (truthy end_date)
  then ret empty_figure
  else
    data <- history_table (text_of symbol) (text_of start_date) (text_of end_date) ;;
    history_figure (text_of symbol) data.

(** *** The process

    The module is loaded once; afterwards the framework calls
    [update_graph] once for every change of an input.  An exception raised
    by the callback ends that request, not the process. *)

Record inputs : Type := mk_inputs
  { in_symbol : pyval; in_start : pyval; in_end : pyval }.

Definition callback (i : inputs) : M Figure :=
  update_graph (in_symbol i) (in_start i) (in_end i).

Fixpoint serve (requests : list inputs) : M (list (Result Figure)) :=
  match requests with
  | [] => ret []
  | i :: rest =>
      fun t =>
        let (answer, t') := callback i t in
        (answers <- serve rest ;; ret (answer :: answers)) t'
  end.

(** What the process holds between two requests: the module globals and
    the figure the layout was built with. *)
Record Globals : Type := mk_globals
  { stocks : list cell; initial_figure : Figure }.

Definition load_module : M Globals :=
  stocks <- load_stocks ;;
  ret (mk_globals stocks empty_figure).

Definition process (requests : list inputs) : M (Globals * list (Result Figure)) :=
  g <- load_module ;;
  answers <- serve requests ;;
  ret (g, answers).
End Script.

Arguments url_history : simpl never.

(** ** A concrete environment

    A small world to run the script in: a calendar, a decimal reader and
    four pages. *)

Module Sample.

Definition is_digit (c : ascii) : bool :=
  (48 <=? N_of_ascii c)%N && (N_of_ascii c <=? 57)%N.

Definition digit (c : ascii) : Z := Z.of_N (N_of_ascii c) - 48.

Definition is_leap (y : Z) : bool :=
  (y mod 4 =? 0) && (negb (y mod 100 =? 0) || (y mod 400 =? 0)).

Definition days_in_month (y m : Z) : Z :=
  if m =? 2 then (if is_leap y then 29 else 28)
  else if (m =? 4) || (m =? 6) || (m =? 9) || (m =? 11) then 30
  else 31.

(** The month field of [%m]: [1[0-2]|0[1-9]|[1-9]]. *)
Definition month_field (s : string) : option (Z * string) :=
  match s with
  | String a (String "-" rest) =>
      if is_digit a && negb (digit a =? 0) then Some (digit a, rest) else None
  | String a (String b (String "-" rest)) =>
      if is_digit a && is_digit b
         && (1 <=? 10 * digit a + digit b) && (10 * digit a + digit b <=? 12)
      then Some (10 * digit a + digit b, rest) else None
  | _ => None
  end.

(** The day field of [%d], which must end the string:
    [3[01]|[12]\d|0[1-9]|[1-9]| [1-9]]. *)
Definition day_field (s : string) : option Z :=
  match s with
  | String a EmptyString =>
      if is_digit a && negb (digit a =? 0) then Some (digit a) else None
  | String a (String b EmptyString) =>
      if Ascii.eqb a " "
      then (if is_digit b && negb (digit b =? 0) then Some (digit b) else None)
      else if is_digit a && is_digit b
              && (1 <=? 10 * digit a + digit b) && (10 * digit a + digit b <=? 31)
      then Some (10 * digit a + digit b) else None
  | _ => None
  end.

Definition strptime_ymd (s : string) : option datetime :=
  match s with
  | String a (String b (String c (String d (String "-" rest)))) =>
      if is_digit a && is_digit b && is_digit c && is_digit d then
        let y := 1000 * digit a + 100 * digit b + 10 * digit c + digit d in
        match month_field rest with
        | Some (m, rest') =>
            match day_field rest' with
            | Some dd =>
                if (1 <=? y) && (dd <=? days_in_month y m)
                then Some (mk_datetime y m dd) else None
            | None => None
            end
        | None => None
        end
      else None
  | _ => None
  end.

Definition strptime (s fmt : string) : option datetime :=
  if String.eqb fmt "%Y-%m-%d" then strptime_ymd s else None.

(** Days from 1970-01-01 to a date of the proleptic Gregorian calendar. *)
Definition days_from_civil (d : datetime) : Z :=
  let y := if month d <=? 2 then year d - 1 else year d in
  let era := y / 400 in
  let yoe := y - era * 400 in
  let mp := if month d <=? 2 then month d + 9 else month d - 3 in
  let doy := (153 * mp + 2) / 5 + day d - 1 in
  let doe := yoe * 365 + yoe / 4 - yoe / 100 + doy in
  era * 146097 + doe - 719468.

(** Local time is UTC.  The conversion looks one day back, which the first
    day of year 1 does not have. *)
Definition timestamp (d : datetime) : Result Q :=
  if (year d =? 1) && (month d =? 1) && (day d =? 1)
  then Raise ValueError
  else Ok (inject_Z (86400 * days_from_civil d)).

Fixpoint digits (s : string) (acc : Z) : option Z :=
  match s with
  | EmptyString => Some acc
  | String c rest => if is_digit c then digits rest (10 * acc + digit c) else None
  end.

(** Unsigned whole numbers only. *)
Definition parse_numeric (s : string) : option Q :=
  match s with
  | EmptyString => None
  | _ => option_map inject_Z (digits s 0)
  end.

Fixpoint to_datetime (l : list cell) : Result (list (option Z)) :=
  match l with
  | [] => Ok []
  | c :: rest =>
      match to_datetime rest with
      | Raise e => Raise e
      | Ok ds =>
          match c with
          | CNaN => Ok (None :: ds)
          | CNum q => Ok (Some (int q) :: ds)
          | CStr s =>
              match strptime_ymd s with
              | Some d => Ok (Some (86400 * days_from_civil d * 1000000000) :: ds)
              | None => Raise ValueError
              end
          end
      end
  end.

Definition stocks_page : list (string * list cell) :=
  [ ("Symbol", [CStr "NVDA"; CStr "AAPL"; CStr "TSLA"]);
    ("Name", [CStr "NVIDIA Corporation"; CStr "Apple Inc."; CStr "Tesla, Inc."]);
    ("Price", [CNum (1401 # 10); CNum (2295 # 10); CNum (2481 # 10)]) ].

Definition history_page (close : string) : list (string * list cell) :=
  [ ("Date", [CStr "2020-01-03"; CStr "2020-01-02"]);
    ("Open Sort", [CStr "74"; CStr "0.19 Dividend"]);
    ("High", [CStr "75"; CNaN]);
    ("Low", [CStr "74"; CNaN]);
    ("Close Close price", [CStr "74"; CNaN]);
    ("Adj Close Adjusted close price", [CStr close; CNaN]);
    ("Volume", [CStr "146322800"; CStr "-"]) ].

Definition read_html (page : string) : Result (list (list (string * list cell))) :=
  if String.eqb page "most-active" then Ok [stocks_page]
  else if String.eqb page "history" then Ok [history_page "72"]
  else if String.eqb page "history, later" then Ok [history_page "73"]
  else if String.eqb page "quote" then Ok [firstn 6 (history_page "72")]
  else Raise ValueError.

(** The site answers a repeated request with fresher data, knows one
    symbol that has no history table, and is down for another. *)
Definition requests_get (t : trace) (url : string) (hdrs : list (string * string))
  : Result string :=
  if String.eqb url url_stocks then Ok "most-active"
  else if String.prefix "https://finance.yahoo.com/quote/AAPL/" url then
    (if existsb (is_get url) t then Ok "history, later" else Ok "history")
  else if String.prefix "https://finance.yahoo.com/quote/QQQ/" url then Ok "quote"
  else if String.prefix "https://finance.yahoo.com/quote/DOWN/" url then Raise RequestException
  else Ok "not found".

Definition env : Env :=
  mk_env requests_get read_html strptime timestamp parse_numeric to_datetime.

End Sample.

(** ** What the statements below talk about *)

Section Statements.
Variable E : Env.

(** What [int(datetime.strptime(date, "%Y-%m-%d").timestamp())] evaluates
    to, on lines 97 and 98. *)
Definition period_of (date : string) : Result Z :=
  match strptime E date "%Y-%m-%d" with
  | None => Raise ValueError
  | Some d =>
      match timestamp E d with
      | Ok ts => Ok (int ts)
      | Raise ex => Raise ex
      end
  end.

Definition column_at (n : nat) (raw : RawFrame) : list cell :=
  snd (nth n raw ("", [])).

(** The price-history table the script makes of a scraped table and of the
    datetimes read off its first column. *)
Definition table_of (raw : RawFrame) (ds : list (option Z)) : DataFrame :=
  [ ("Date", Datetimes ds);
    ("Open", Cells (map (to_numeric_coerce E) (column_at 1 raw)));
    ("High", Cells (map (to_numeric_coerce E) (column_at 2 raw)));
    ("Low", Cells (map (to_numeric_coerce E) (column_at 3 raw)));
    ("Close", Cells (map (to_numeric_coerce E) (column_at 4 raw)));
    ("Adj Close", Cells (map (to_numeric_coerce E) (column_at 5 raw)));
    ("Volume", Cells (map (to_numeric_coerce E) (column_at 6 raw))) ].

(** The figure drawn from them. *)
Definition figure_of (symbol : string) (raw : RawFrame) (ds : list (option Z))
  : Figure :=
  mk_figure
    [mk_scatter (Datetimes ds)
                (Cells (map (to_numeric_coerce E) (column_at 5 raw))) "lines"]
    (mk_layout (Some ("Stock Prices: " ++ symbol)%string)
               (Some (1 # 2)%Q) (Some 800) (Some 600) (Some "plotly_white")).

(** The libraries play along with a call of [update_graph] at [t]: both
    dates parse and convert to timestamps, the request for the address
    built from them is answered with [page], and [raw] is the first table of
    that page. *)
Inductive scrapes (t : trace) (symbol start_date end_date : string)
  : string -> string -> RawFrame -> Prop :=
| scrapes_intro period1 period2 page tables raw :
    period_of start_date = Ok period1 ->
    period_of end_date = Ok period2 ->
    requests_get E t (url_history symbol period1 period2) headers = Ok page ->
    read_html E page = Ok tables ->
    first_table tables = Ok raw ->
    scrapes t symbol start_date end_date
      (url_history symbol period1 period2) page raw.

(** The scraped table has the seven columns and dates pandas can read. *)
Definition fits (raw : RawFrame) (ds : list (option Z)) : Prop :=
  length raw = 7%nat /\ to_datetime E (column_at 0 raw) = Ok ds.

(** A cell [pd.to_numeric] takes as it is or can read. *)
Definition valid_numeric (c : cell) : bool :=
  match c with
  | CStr s => match parse_numeric E s with Some _ => true | None => false end
  | CNum _ => true
  | CNaN => false
  end.

Definition is_numeric (c : cell) : bool :=
  match c with
  | CStr _ => false
  | CNum _ | CNaN => true
  end.

(** The statement that one call of the callback fetches the ticker list
    again. *)
Definition refetches_stocks (i : inputs) (t : trace) : Prop :=
  exists hdrs timeout,
    In (HttpGet url_stocks hdrs timeout) (new_events t (snd (callback E i t))).

(** The statement that one call of [update_graph] sends exactly one
    request. *)
Definition sends_one_request (symbol start_date end_date : pyval) (t : trace)
  : Prop :=
  length (filter is_request
            (new_events t (snd (update_graph E symbol start_date end_date t))))
  = 1%nat.

(** The statement that [update_graph] raises [ValueError] and leaves the
    trace as it was. *)
Definition raises_ValueError_at_once (symbol start_date end_date : pyval)
    (t : trace) : Prop :=
  update_graph E symbol start_date end_date t = (Raise ValueError, t).
End Statements.

(** Two other worlds: one where the site cannot be reached, one where the
    ticker page has been redesigned and shows a table without a Symbol
    column. *)
Definition unreachable_site : Env :=
  mk_env (fun _ _ _ => Raise RequestException)
         Sample.read_html Sample.strptime Sample.timestamp
         Sample.parse_numeric Sample.to_datetime.

Definition redesigned_site : Env :=
  mk_env Sample.requests_get
         (fun _ => Ok [Sample.history_page "72"])
         Sample.strptime Sample.timestamp
         Sample.parse_numeric Sample.to_datetime.




(** The characters [str] writes. *)
Definition numeral_chars : list ascii := list_ascii_of_string "-0123456789".

(** A library call as the script makes them: a request goes to the finance
    site, carries the browser header of line 21 and sets no timeout. *)
Definition expected_event (e : event) : Prop :=
  match e with
  | HttpGet url hdrs timeout =>
      String.prefix "https://finance.yahoo.com/" url = true
      /\ hdrs = headers /\ timeout = None
  | ReadHtml _ => True
  end.

(** The column of a frame that alone carries a label. *)
Definition only_column (A : Type) (label : string) (col : A) (df : frame A) : Prop :=
  exists before after,
    df = before ++ (label, col) :: after
    /\ ~ In label (labels before) /\ ~ In label (labels after).

Example sample_timestamp :
  period_of Sample.env "2020-01-01" = Ok 1577836800
  /\ period_of Sample.env "0001-01-02" = Ok (-62135510400)
  /\ period_of Sample.env "0001-01-01" = Raise ValueError.
Proof. repeat split. Qed.

Example sample_strptime_unpadded :
  Sample.strptime "2020-1-5" "%Y-%m-%d" = Some (mk_datetime 2020 1 5).
Proof. reflexivity. Qed.

Example sample_strptime_rejects :
  map (fun s => Sample.strptime s "%Y-%m-%d")
      [""; "yesterday"; "2020-02-30"; "2020-13-01"; "2020-01-011"; "0000-01-01"]
  = [None; None; None; None; None; None].
Proof. reflexivity. Qed.

(** ** Basic facts *)

Lemma truthy_nonempty (s : string) : s <> "" -> truthy (Some s) = true.
Proof.
  intros H. unfold truthy.
  destruct (String.eqb_spec s ""); [contradiction | reflexivity].
Qed.

Lemma truthy_inv (v : pyval) :
  truthy v = true -> exists s, v = Some s /\ s <> "".
Proof.
  destruct v as [s|]; simpl; [|discriminate].
  destruct (String.eqb_spec s ""); [discriminate|].
  intros _. exists s. split; [reflexivity | assumption].
Qed.

Lemma new_events_app (t u : trace) : new_events t (t ++ u) = u.
Proof.
  unfold new_events. rewrite skipn_app, skipn_all, Nat.sub_diag. reflexivity.
Qed.

Lemma new_events_same (t : trace) : new_events t t = [].
Proof. unfold new_events. apply skipn_all. Qed.

Section Facts.
Variable E : Env.

Ltac run := unfold bind, lift, emit, get_trace, ret, raise in *; simpl in *.

(** *** The placeholder branch *)

Lemma update_graph_guard (symbol start_date end_date : pyval) (t : trace) :
  truthy symbol = false \/ truthy start_date = false \/ truthy end_date = false ->
  update_graph E symbol start_date end_date t = (Ok empty_figure, t).
Proof.
  intros H. unfold update_graph.
  assert (G : negb (truthy symbol) || negb (truthy start_date)
              || negb (truthy end_date) = true).
  { destruct H as [H | [H | H]]; rewrite H; simpl;
      rewrite ?orb_true_r; reflexivity. }
  rewrite G. reflexivity.
Qed.

(** *** The data branch *)

Lemma update_graph_data (symbol start_date end_date : string) :
  symbol <> "" -> start_date <> "" -> end_date <> "" ->
  update_graph E (Some symbol) (Some start_date) (Some end_date)
  = (data <- history_table E symbol start_date end_date ;;
     history_figure symbol data).
Proof.
  intros H1 H2 H3. unfold update_graph.
  rewrite !truthy_nonempty by assumption. reflexivity.
Qed.

Lemma dates_of_renamed (raw : RawFrame) :
  length raw = 7%nat ->
  getitem "Date"
    (iloc_from_1_apply (map (to_numeric_coerce E))
       (combine history_columns (map snd raw)))
  = Ok (column_at 0 raw).
Proof.
  intros L.
  do 7 (destruct raw as [|[? ?] raw]; [discriminate L|]).
  destruct raw; [|discriminate L]. reflexivity.
Qed.

Lemma table_of_renamed (raw : RawFrame) (ds : list (option Z)) :
  length raw = 7%nat ->
  setitem_datetimes "Date" ds
    (iloc_from_1_apply (map (to_numeric_coerce E))
       (combine history_columns (map snd raw)))
  = table_of E raw ds.
Proof.
  intros L.
  do 7 (destruct raw as [|[? ?] raw]; [discriminate L|]).
  destruct raw; [|discriminate L]. reflexivity.
Qed.

Lemma set_columns_ok (raw : RawFrame) :
  length raw = 7%nat ->
  set_columns history_columns raw = Ok (combine history_columns (map snd raw)).
Proof. intros L. unfold set_columns. rewrite L. reflexivity. Qed.


Lemma set_columns_inv (raw df : RawFrame) :
  set_columns history_columns raw = Ok df ->
  length raw = 7%nat /\ df = combine history_columns (map snd raw).
Proof.
  unfold set_columns.
  destruct (Nat.eqb_spec (length history_columns) (length raw)) as [e|];
    [|discriminate].
  intros H. injection H as <-. split; [symmetry; exact e | reflexivity].
Qed.

Lemma history_figure_of (symbol : string) (raw : RawFrame) (ds : list (option Z))
    (t : trace) :
  history_figure symbol (table_of E raw ds) t = (Ok (figure_of E symbol raw ds), t).
Proof. reflexivity. Qed.

Lemma period_of_bad_date (date : string) :
  strptime E date "%Y-%m-%d" = None -> period_of E date = Raise ValueError.
Proof. intros H. unfold period_of. rewrite H. reflexivity. Qed.

Lemma period_of_Ok (date : string) (period : Z) :
  period_of E date = Ok period ->
  exists d ts,
    strptime E date "%Y-%m-%d" = Some d /\ timestamp E d = Ok ts /\ period = int ts.
Proof.
  unfold period_of.
  destruct (strptime E date "%Y-%m-%d") as [d|]; [|discriminate].
  destruct (timestamp E d) as [ts|] eqn:T; [|discriminate].
  intros H. injection H as <-. exists d, ts. repeat split. exact T.
Qed.

(** Lines 97 and 98 come first and touch nothing. *)
Lemma history_table_dates (symbol start_date end_date : string) (t : trace) :
  history_table E symbol start_date end_date t
  = match period_of E start_date with
    | Raise ex => (Raise ex, t)
    | Ok period1 =>
        match period_of E end_date with
        | Raise ex => (Raise ex, t)
        | Ok period2 =>
            (page <- get_text E (url_history symbol period1 period2) ;;
             tables <- pd_read_html E page ;;
             data <- lift (first_table tables) ;;
             data <- lift (set_columns history_columns data) ;;
             let data := iloc_from_1_apply (map (to_numeric_coerce E)) data in
             dates <- lift (getitem "Date" data) ;;
             dates <- lift (to_datetime E dates) ;;
             ret (setitem_datetimes "Date" dates data)) t
        end
    end.
Proof.
  unfold history_table, period_of, datetime_strptime, bind, lift, ret, raise.
  destruct (strptime E start_date "%Y-%m-%d") as [d1|]; [|reflexivity].
  destruct (timestamp E d1) as [ts1|]; [|reflexivity].
  destruct (strptime E end_date "%Y-%m-%d") as [d2|]; [|reflexivity].
  destruct (timestamp E d2) as [ts2|]; reflexivity.
Qed.

Lemma history_table_ok (t : trace) (symbol start_date end_date url page : string)
    (raw : RawFrame) (ds : list (option Z)) :
  scrapes E t symbol start_date end_date url page raw ->
  fits E raw ds ->
  history_table E symbol start_date end_date t
  = (Ok (table_of E raw ds), t ++ [HttpGet url headers None; ReadHtml page]).
Proof.
  intros S [L D]. destruct S as [p1 p2 page tables raw P1 P2 G R F].
  rewrite history_table_dates, P1, P2.
  unfold get_text, pd_read_html. run. rewrite G, R, F.
  rewrite (set_columns_ok raw L), (dates_of_renamed raw L), D.
  rewrite (table_of_renamed raw ds L), <- app_assoc. reflexivity.
Qed.

Lemma history_table_inv (t t' : trace) (symbol start_date end_date : string)
    (df : DataFrame) :
  history_table E symbol start_date end_date t = (Ok df, t') ->
  exists url page raw ds,
    scrapes E t symbol start_date end_date url page raw /\
    fits E raw ds /\
    df = table_of E raw ds /\
    t' = t ++ [HttpGet url headers None; ReadHtml page].
Proof.
  rewrite history_table_dates.
  destruct (period_of E start_date) as [p1|] eqn:P1; [|discriminate].
  destruct (period_of E end_date) as [p2|] eqn:P2; [|discriminate].
  unfold get_text, pd_read_html. run.
  destruct (requests_get E t _ headers) as [page|] eqn:G; [|discriminate].
  destruct (read_html E page) as [tables|] eqn:R; [|discriminate].
  destruct (first_table tables) as [raw|] eqn:F; [|discriminate].
  destruct (set_columns history_columns raw) as [renamed|] eqn:C; [|discriminate].
  apply set_columns_inv in C. destruct C as [L ->].
  rewrite (dates_of_renamed raw L).
  destruct (to_datetime E (column_at 0 raw)) as [ds|] eqn:D; [|discriminate].
  rewrite (table_of_renamed raw ds L), <- app_assoc. simpl.
  intros H. injection H as <- <-.
  exists (url_history symbol p1 p2), page, raw, ds.
  split; [econstructor; eassumption|].
  split; [split; assumption|]. split; reflexivity.
Qed.

Lemma update_graph_ok (t : trace) (symbol start_date end_date url page : string)
    (raw : RawFrame) (ds : list (option Z)) :
  symbol <> "" -> start_date <> "" -> end_date <> "" ->
  scrapes E t symbol start_date end_date url page raw ->
  fits E raw ds ->
  update_graph E (Some symbol) (Some start_date) (Some end_date) t
  = (Ok (figure_of E symbol raw ds),
     t ++ [HttpGet url headers None; ReadHtml page]).
Proof.
  intros N1 N2 N3 S F. rewrite update_graph_data by assumption.
  unfold bind. rewrite (history_table_ok S F). apply history_figure_of.
Qed.

Lemma update_graph_inv (t t' : trace) (symbol start_date end_date : string)
    (fig : Figure) :
  symbol <> "" -> start_date <> "" -> end_date <> "" ->
  update_graph E (Some symbol) (Some start_date) (Some end_date) t = (Ok fig, t') ->
  exists url page raw ds,
    scrapes E t symbol start_date end_date url page raw /\
    fits E raw ds /\
    fig = figure_of E symbol raw ds /\
    t' = t ++ [HttpGet url headers None; ReadHtml page].
Proof.
  intros N1 N2 N3. rewrite update_graph_data by assumption.
  unfold bind at 1.
  destruct (history_table E symbol start_date end_date t) as [[df|ex] t1] eqn:H;
    [|discriminate].
  apply history_table_inv in H. destruct H as (url & page & raw & ds & S & F & -> & ->).
  rewrite history_figure_of. intros Q. injection Q as <- <-.
  exists url, page, raw, ds. repeat split; try assumption; apply F.
Qed.
End Facts.

(** ** What a call adds to the trace, and how it fails *)

Lemma url_history_not_stocks (symbol : string) (period1 period2 : Z) :
  String.eqb (url_history symbol period1 period2) url_stocks = false.
Proof. reflexivity. Qed.

Section Events.
Variable E : Env.

Ltac run := unfold bind, lift, emit, get_trace, ret, raise in *; simpl in *.

Lemma history_figure_trace (symbol : string) (data : DataFrame) (t : trace) :
  snd (history_figure symbol data t) = t.
Proof.
  unfold history_figure, sized_figure. run.
  destruct (getitem "Date" data); [|reflexivity].
  destruct (getitem "Adj Close" data); reflexivity.
Qed.

(** A date that does not make it through line 97 or 98 ends the call
    there. *)
Lemma history_table_no_period (symbol start_date end_date : string) (t : trace)
    (ex : exn) :
  period_of E start_date = Raise ex
  \/ (exists period1, period_of E start_date = Ok period1
                      /\ period_of E end_date = Raise ex) ->
  history_table E symbol start_date end_date t = (Raise ex, t).
Proof.
  intros H. rewrite history_table_dates.
  destruct H as [H | (period1 & H1 & H2)].
  - rewrite H. reflexivity.
  - rewrite H1, H2. reflexivity.
Qed.

(** Once both dates are converted, the request is sent whatever follows. *)
Lemma history_table_requests (symbol start_date end_date : string) (t : trace)
    (period1 period2 : Z) :
  period_of E start_date = Ok period1 ->
  period_of E end_date = Ok period2 ->
  exists rest,
    snd (history_table E symbol start_date end_date t)
    = t ++ HttpGet (url_history symbol period1 period2) headers None :: rest
    /\ filter is_request rest = [].
Proof.
  intros P1 P2. rewrite history_table_dates, P1, P2.
  unfold get_text, pd_read_html. run.
  destruct (requests_get E t _ headers) as [page|]; [|exists []; split; reflexivity].
  exists [ReadHtml page]. split; [|reflexivity].
  rewrite <- app_assoc. simpl.
  destruct (read_html E page) as [tables|]; [|reflexivity].
  destruct (first_table tables) as [raw|]; [|reflexivity].
  destruct (set_columns history_columns raw) as [renamed|]; [|reflexivity].
  destruct (getitem "Date" _) as [dates|]; [|reflexivity].
  destruct (to_datetime E dates); reflexivity.
Qed.

Lemma update_graph_trace (symbol start_date end_date : string) (t : trace) :
  symbol <> "" -> start_date <> "" -> end_date <> "" ->
  snd (update_graph E (Some symbol) (Some start_date) (Some end_date) t)
  = snd (history_table E symbol start_date end_date t).
Proof.
  intros N1 N2 N3. rewrite update_graph_data by assumption. unfold bind.
  destruct (history_table E symbol start_date end_date t) as [[df|ex] t1];
    [apply history_figure_trace | reflexivity].
Qed.

Lemma update_graph_no_period (symbol start_date end_date : string) (t : trace)
    (ex : exn) :
  symbol <> "" -> start_date <> "" -> end_date <> "" ->
  period_of E start_date = Raise ex
  \/ (exists period1, period_of E start_date = Ok period1
                      /\ period_of E end_date = Raise ex) ->
  update_graph E (Some symbol) (Some start_date) (Some end_date) t
  = (Raise ex, t).
Proof.
  intros N1 N2 N3 H. rewrite update_graph_data by assumption.
  unfold bind. rewrite (history_table_no_period symbol start_date end_date t H).
  reflexivity.
Qed.

(** No call of the callback asks for the ticker list. *)
Lemma update_graph_events (symbol start_date end_date : pyval) (t : trace) :
  exists new,
    snd (update_graph E symbol start_date end_date t) = t ++ new
    /\ filter (is_get url_stocks) new = [].
Proof.
  destruct (truthy symbol) eqn:T1;
    [|exists []; rewrite update_graph_guard, app_nil_r by auto; split; reflexivity].
  destruct (truthy start_date) eqn:T2;
    [|exists []; rewrite update_graph_guard, app_nil_r by auto; split; reflexivity].
  destruct (truthy end_date) eqn:T3;
    [|exists []; rewrite update_graph_guard, app_nil_r by auto; split; reflexivity].
  apply truthy_inv in T1, T2, T3.
  destruct T1 as (sy & -> & N1), T2 as (sd & -> & N2), T3 as (ed & -> & N3).
  rewrite update_graph_trace by assumption.
  destruct (period_of E sd) as [p1|ex1] eqn:P1;
    [|exists []; rewrite (@history_table_no_period sy sd ed t ex1), app_nil_r by auto;
      split; reflexivity].
  destruct (period_of E ed) as [p2|ex2] eqn:P2;
    [|exists []; rewrite (@history_table_no_period sy sd ed t ex2), app_nil_r by eauto;
      split; reflexivity].
  destruct (@history_table_requests sy sd ed t p1 p2 P1 P2) as (rest & -> & R).
  eexists. split; [reflexivity|].
  simpl.
  clear - R. induction rest as [|[u h o | p] rest IH]; simpl in *;
    [reflexivity | discriminate R | exact (IH R)].
Qed.

Lemma serve_events (requests : list inputs) (t : trace) :
  exists new,
    snd (serve E requests t) = t ++ new
    /\ filter (is_get url_stocks) new = [].
Proof.
  revert t. induction requests as [|i rest IH]; intros t.
  - exists []. rewrite app_nil_r. split; reflexivity.
  - simpl. unfold callback.
    destruct (update_graph_events (in_symbol i) (in_start i) (in_end i) t)
      as (new1 & H1 & F1).
    destruct (update_graph E (in_symbol i) (in_start i) (in_end i) t)
      as [answer t1]. simpl in H1. subst t1.
    destruct (IH (t ++ new1)) as (new2 & H2 & F2).
    exists (new1 ++ new2). unfold bind, ret.
    destruct (serve E rest (t ++ new1)) as [[answers|ex] t2]; simpl in *;
      subst t2; rewrite app_assoc, filter_app, F1, F2; split; reflexivity.
Qed.

Lemma serve_returns (requests : list inputs) (t : trace) :
  exists answers, fst (serve E requests t) = Ok answers
                  /\ length answers = length requests.
Proof.
  revert t. induction requests as [|i rest IH]; intros t.
  - exists []. split; reflexivity.
  - simpl. destruct (callback E i t) as [answer t1].
    destruct (IH t1) as (answers & H & L). unfold bind, ret.
    destruct (serve E rest t1) as [[answers'|ex] t2]; simpl in *;
      [|discriminate H].
    injection H as ->. exists (answer :: answers). simpl. rewrite L.
    split; reflexivity.
Qed.

(** Loading the module sends the one request for the ticker list first. *)
Lemma load_module_events (t : trace) :
  exists rest,
    snd (load_module E t) = t ++ HttpGet url_stocks headers None :: rest
    /\ filter is_request rest = [].
Proof.
  unfold load_module, load_stocks, get_text, pd_read_html. run.
  destruct (requests_get E t url_stocks headers) as [page|];
    [|exists []; split; reflexivity].
  exists [ReadHtml page]. split; [|reflexivity].
  rewrite <- app_assoc. simpl.
  destruct (read_html E page) as [tables|]; [|reflexivity].
  destruct (first_table tables) as [table|]; [|reflexivity].
  destruct (getitem "Symbol" table); reflexivity.
Qed.

Lemma no_request_no_get (url : string) (l : trace) :
  filter is_request l = [] -> filter (is_get url) l = [].
Proof.
  induction l as [|[u h o | p] l IH]; simpl; intros H;
    [reflexivity | discriminate H | exact (IH H)].
Qed.

(** *** Failures of the libraries reach the caller *)

Section Raised.
Variables (symbol start_date end_date : string) (t : trace) (period1 period2 : Z).
Hypothesis N1 : symbol <> "".
Hypothesis N2 : start_date <> "".
Hypothesis N3 : end_date <> "".
Hypothesis P1 : period_of E start_date = Ok period1.
Hypothesis P2 : period_of E end_date = Ok period2.






End Raised.
End Events.

(** ** The callback *)

(** The sample run used to exercise the statements: Apple, January 2020. *)
Lemma sample_scrapes :
  scrapes Sample.env [] "AAPL" "2020-01-01" "2020-02-01"
    (url_history "AAPL" 1577836800 1580515200)
    "history" (Sample.history_page "72").
Proof.
  apply (@scrapes_intro Sample.env [] "AAPL" "2020-01-01" "2020-02-01"
           1577836800 1580515200
           "history" [Sample.history_page "72"] (Sample.history_page "72"));
    reflexivity.
Defined.

Lemma sample_fits :
  fits Sample.env (Sample.history_page "72")
    [Some 1578009600000000000; Some 1577923200000000000].
Proof. split; reflexivity. Defined.

Lemma nonempty_literal (a : ascii) (s : string) : String a s <> "".
Proof. discriminate. Defined.

(** C8.  When the symbol, the start date or the end date is [None] or empty,
    [update_graph] returns the figure of [empty_figure], which has one empty
    line trace and the title "Loading Data...", and the trace of library
    calls is what it was: no request was sent and no table parsed. *)
Theorem update_graph_placeholder (E : Env) (symbol start_date end_date : pyval)
    (t : trace) :
  truthy symbol = false \/ truthy start_date = false \/ truthy end_date = false ->
  update_graph E symbol start_date end_date t = (Ok empty_figure, t)
  /\ new_events t (snd (update_graph E symbol start_date end_date t)) = []
  /\ fig_data empty_figure = [mk_scatter (Cells []) (Cells []) "lines"]
  /\ title (fig_layout empty_figure) = Some "Loading Data...".
Proof.
  intros H. rewrite (update_graph_guard E symbol start_date end_date t H).
  simpl. rewrite new_events_same. repeat split.
Qed.

Lemma update_graph_placeholder_witness :
  update_graph Sample.env (Some "AAPL") None (Some "2020-02-01") []
  = (Ok empty_figure, []).
Proof.
  apply (@update_graph_placeholder Sample.env (Some "AAPL") None (Some "2020-02-01") []).
  right. left. reflexivity.
Defined.



(** C1.  For a non-empty symbol and non-empty dates, a figure returned by
    [update_graph] is titled "Stock Prices: " followed by the symbol; and a
    figure is returned whenever the dates parse and convert to timestamps
    and the page fetched has a first table of seven columns with readable
    dates. *)
Theorem update_graph_title (E : Env) (symbol start_date end_date : string)
    (t : trace) :
  symbol <> "" -> start_date <> "" -> end_date <> "" ->
  (forall fig t',
      update_graph E (Some symbol) (Some start_date) (Some end_date) t = (Ok fig, t') ->
      title (fig_layout fig) = Some ("Stock Prices: " ++ symbol)%string)
  /\ (forall url page raw ds,
         scrapes E t symbol start_date end_date url page raw ->
         fits E raw ds ->
         exists fig t',
           update_graph E (Some symbol) (Some start_date) (Some end_date) t
           = (Ok fig, t')
           /\ title (fig_layout fig) = Some ("Stock Prices: " ++ symbol)%string).
Proof.
  intros N1 N2 N3. split.
  - intros fig t' H. apply update_graph_inv in H; try assumption.
    destruct H as (url & page & raw & ds & _ & _ & -> & _). reflexivity.
  - intros url page raw ds S F.
    exists (figure_of E symbol raw ds), (t ++ [HttpGet url headers None; ReadHtml page]).
    split; [apply update_graph_ok; assumption | reflexivity].
Qed.

Lemma update_graph_title_witness :
  exists fig t',
    update_graph Sample.env (Some "AAPL") (Some "2020-01-01") (Some "2020-02-01") []
    = (Ok fig, t')
    /\ title (fig_layout fig) = Some "Stock Prices: AAPL".
Proof.
  exact (proj2 (@update_graph_title Sample.env "AAPL" "2020-01-01" "2020-02-01" []
                  (@nonempty_literal _ _) (@nonempty_literal _ _) (@nonempty_literal _ _))
           _ _ _ _ sample_scrapes sample_fits).
Defined.

(** C7.  For a non-empty symbol and non-empty dates, a figure returned by
    [update_graph] has exactly one trace, drawn as lines: its x values are
    the datetimes pandas reads off the first column of the scraped table,
    the one the script labels Date, and its y values are the sixth column,
    labelled Adj Close, made numeric.  Such a figure is returned whenever the
    dates parse and convert to timestamps and the table has seven columns
    with readable dates. *)
Theorem update_graph_line (E : Env) (symbol start_date end_date : string)
    (t : trace) :
  symbol <> "" -> start_date <> "" -> end_date <> "" ->
  (forall fig t',
      update_graph E (Some symbol) (Some start_date) (Some end_date) t = (Ok fig, t') ->
      exists url page raw ds,
        scrapes E t symbol start_date end_date url page raw
        /\ to_datetime E (column_at 0 raw) = Ok ds
        /\ fig_data fig
           = [mk_scatter (Datetimes ds)
                (Cells (map (to_numeric_coerce E) (column_at 5 raw))) "lines"])
  /\ (forall url page raw ds,
         scrapes E t symbol start_date end_date url page raw ->
         fits E raw ds ->
         exists fig t',
           update_graph E (Some symbol) (Some start_date) (Some end_date) t
           = (Ok fig, t')
           /\ fig_data fig
              = [mk_scatter (Datetimes ds)
                   (Cells (map (to_numeric_coerce E) (column_at 5 raw))) "lines"]).
Proof.
  intros N1 N2 N3. split.
  - intros fig t' H. apply update_graph_inv in H; try assumption.
    destruct H as (url & page & raw & ds & S & [_ D] & -> & _).
    exists url, page, raw, ds. repeat split; assumption.
  - intros url page raw ds S F.
    exists (figure_of E symbol raw ds), (t ++ [HttpGet url headers None; ReadHtml page]).
    split; [apply update_graph_ok; assumption | reflexivity].
Qed.

Lemma update_graph_line_witness :
  exists fig t',
    update_graph Sample.env (Some "AAPL") (Some "2020-01-01") (Some "2020-02-01") []
    = (Ok fig, t')
    /\ fig_data fig
       = [mk_scatter (Datetimes [Some 1578009600000000000; Some 1577923200000000000])
            (Cells [CNum (inject_Z 72); CNaN]) "lines"].
Proof.
  exact (proj2 (@update_graph_line Sample.env "AAPL" "2020-01-01" "2020-02-01" []
                  (@nonempty_literal _ _) (@nonempty_literal _ _) (@nonempty_literal _ _))
           _ _ _ _ sample_scrapes sample_fits).
Defined.

Lemma to_numeric_coerce_numeric (E : Env) (c : cell) :
  is_numeric (to_numeric_coerce E c) = true.
Proof.
  destruct c as [s | q |]; simpl; [|reflexivity|reflexivity].
  destruct (parse_numeric E s); reflexivity.
Qed.

Lemma to_numeric_coerce_nan (E : Env) (c : cell) :
  to_numeric_coerce E c = CNaN <-> valid_numeric E c = false.
Proof.
  destruct c as [s | q |]; simpl.
  - destruct (parse_numeric E s); split; intros H; try discriminate H; reflexivity.
  - split; discriminate.
  - split; reflexivity.
Qed.

Lemma table_of_other_columns (E : Env) (raw : RawFrame) (ds : list (option Z))
    (label : string) (col : Series) :
  In (label, col) (table_of E raw ds) -> label <> "Date" ->
  exists n, (1 <= n <= 6)%nat
            /\ col = Cells (map (to_numeric_coerce E) (column_at n raw)).
Proof.
  intros I N. unfold table_of in I. simpl in I.
  destruct I as [I | [I | [I | [I | [I | [I | [I | []]]]]]]];
    injection I as <- <-.
  - contradiction N; reflexivity.
  - exists 1%nat. split; [lia | reflexivity].
  - exists 2%nat. split; [lia | reflexivity].
  - exists 3%nat. split; [lia | reflexivity].
  - exists 4%nat. split; [lia | reflexivity].
  - exists 5%nat. split; [lia | reflexivity].
  - exists 6%nat. split; [lia | reflexivity].
Qed.

(** C2.  For a non-empty symbol and non-empty dates, [update_graph] is the
    table-building lines followed by the drawing lines, and a table the
    former return has exactly the columns Date, Open, High, Low, Close,
    Adj Close and Volume, in this order.  Every column but Date holds the
    cells of the scraped column at its place after [pd.to_numeric] with
    [errors='coerce']: none is text any more, a number stays, and a cell is
    NaN exactly when it was not a valid number.  The table is returned
    whenever the dates parse and convert to timestamps and the scraped table
    has seven columns with readable dates. *)
Theorem history_table_columns (E : Env) (symbol start_date end_date : string)
    (t : trace) :
  symbol <> "" -> start_date <> "" -> end_date <> "" ->
  update_graph E (Some symbol) (Some start_date) (Some end_date)
  = (data <- history_table E symbol start_date end_date ;;
     history_figure symbol data)
  /\ (forall df t',
         history_table E symbol start_date end_date t = (Ok df, t') ->
         labels df
         = ["Date"; "Open"; "High"; "Low"; "Close"; "Adj Close"; "Volume"]
         /\ exists url page raw ds,
             scrapes E t symbol start_date end_date url page raw
             /\ df = table_of E raw ds
             /\ forall label col,
                 In (label, col) df -> label <> "Date" ->
                 exists n, (1 <= n <= 6)%nat
                           /\ col = Cells (map (to_numeric_coerce E) (column_at n raw)))
  /\ (forall c,
         is_numeric (to_numeric_coerce E c) = true
         /\ (to_numeric_coerce E c = CNaN <-> valid_numeric E c = false)
         /\ (forall q, c = CNum q -> to_numeric_coerce E c = CNum q))
  /\ (forall url page raw ds,
         scrapes E t symbol start_date end_date url page raw ->
         fits E raw ds ->
         exists t', history_table E symbol start_date end_date t
                    = (Ok (table_of E raw ds), t')).
Proof.
  intros N1 N2 N3. split; [apply update_graph_data; assumption|]. split; [|split].
  - intros df t' H. apply history_table_inv in H.
    destruct H as (url & page & raw & ds & S & F & -> & _).
    split; [reflexivity|].
    exists url, page, raw, ds. split; [exact S|]. split; [reflexivity|].
    intros label col. apply table_of_other_columns.
  - intros c. split; [apply to_numeric_coerce_numeric|].
    split; [apply to_numeric_coerce_nan|].
    intros q ->. reflexivity.
  - intros url page raw ds S F. eexists. apply history_table_ok; eassumption.
Qed.

Lemma history_table_columns_witness :
  exists t',
    history_table Sample.env "AAPL" "2020-01-01" "2020-02-01" []
    = (Ok [ ("Date", Datetimes [Some 1578009600000000000; Some 1577923200000000000]);
            ("Open", Cells [CNum (inject_Z 74); CNaN]);
            ("High", Cells [CNum (inject_Z 75); CNaN]);
            ("Low", Cells [CNum (inject_Z 74); CNaN]);
            ("Close", Cells [CNum (inject_Z 74); CNaN]);
            ("Adj Close", Cells [CNum (inject_Z 72); CNaN]);
            ("Volume", Cells [CNum (inject_Z 146322800); CNaN]) ], t').
Proof.
  exact (proj2 (proj2 (proj2
           (@history_table_columns Sample.env "AAPL" "2020-01-01" "2020-02-01" []
              (@nonempty_literal _ _) (@nonempty_literal _ _) (@nonempty_literal _ _))))
           _ _ _ _ sample_scrapes sample_fits).
Defined.

(** ** Failures *)




(** ** Requests *)

Lemma update_graph_request (E : Env) (symbol start_date end_date : string)
    (t : trace) (period1 period2 : Z) :
  symbol <> "" -> start_date <> "" -> end_date <> "" ->
  period_of E start_date = Ok period1 ->
  period_of E end_date = Ok period2 ->
  exists rest,
    snd (update_graph E (Some symbol) (Some start_date) (Some end_date) t)
    = t ++ HttpGet (url_history symbol period1 period2) headers None :: rest
    /\ filter is_request rest = [].
Proof.
  intros N1 N2 N3 P1 P2. rewrite update_graph_trace by assumption.
  apply history_table_requests; assumption.
Qed.

Lemma In_filtered_out (f : event -> bool) (l : trace) (e : event) :
  filter f l = [] -> In e l -> f e = false.
Proof.
  intros F I. destruct (f e) eqn:Fe; [|reflexivity].
  assert (J : In e (filter f l)) by (apply filter_In; split; assumption).
  rewrite F in J. destruct J.
Qed.

Example str_of_integers :
  map str [0; 7; 1577836800; -86400] = ["0"; "7"; "1577836800"; "-86400"].
Proof. reflexivity. Qed.

Example int_truncates :
  map int [(7 # 2)%Q; (-7 # 2)%Q; inject_Z 1577836800] = [3; -3; 1577836800].
Proof. reflexivity. Qed.

(** C5, as the code has it.  The claim as stated fails on dates that are not
    empty and do not make it to a timestamp: on a date that does not parse,
    and on a date that parses and that [timestamp()] refuses, no request is
    sent. *)
Lemma one_request_counterexample :
  "AAPL" <> "" /\ "yesterday" <> "" /\ "2020-02-01" <> "" /\ "0001-01-01" <> ""
  /\ ~ sends_one_request Sample.env
         (Some "AAPL") (Some "yesterday") (Some "2020-02-01") []
  /\ strptime Sample.env "0001-01-01" "%Y-%m-%d" = Some (mk_datetime 1 1 1)
  /\ ~ sends_one_request Sample.env
         (Some "AAPL") (Some "0001-01-01") (Some "2020-02-01") [].
Proof.
  do 4 (split; [discriminate|]).
  split; [unfold sends_one_request; vm_compute; discriminate|].
  split; [reflexivity|].
  unfold sends_one_request. vm_compute. discriminate.
Qed.

(** C5, amended.  For a non-empty symbol and non-empty dates that both parse
    and convert to timestamps, [update_graph] sends exactly one HTTP GET,
    without a timeout, to the address built from the symbol and the two
    timestamps, whatever was requested before; two calls with the same
    inputs send it twice.  When a date does not parse or does not convert,
    nothing is sent. *)
Theorem update_graph_one_request (E : Env) (symbol start_date end_date : string) :
  symbol <> "" -> start_date <> "" -> end_date <> "" ->
  (forall period1 period2,
      period_of E start_date = Ok period1 ->
      period_of E end_date = Ok period2 ->
      forall t,
        filter is_request
          (new_events t
             (snd (update_graph E (Some symbol) (Some start_date) (Some end_date) t)))
        = [HttpGet (url_history symbol period1 period2) headers None]
        /\ sends_one_request E (Some symbol) (Some start_date) (Some end_date) t
        /\ filter is_request
             (new_events t
                (snd (serve E [mk_inputs (Some symbol) (Some start_date) (Some end_date);
                               mk_inputs (Some symbol) (Some start_date) (Some end_date)]
                        t)))
           = [HttpGet (url_history symbol period1 period2) headers None;
              HttpGet (url_history symbol period1 period2) headers None]
        /\ url_history symbol period1 period2
           = ("https://finance.yahoo.com/quote/" ++ symbol ++ "/history/?period1="
                ++ str period1 ++ "&period2=" ++ str period2)%string)
  /\ (forall ex t,
         period_of E start_date = Raise ex
         \/ (exists period1, period_of E start_date = Ok period1
                             /\ period_of E end_date = Raise ex) ->
         new_events t
           (snd (update_graph E (Some symbol) (Some start_date) (Some end_date) t))
         = []).
Proof.
  intros N1 N2 N3. split.
  - intros period1 period2 P1 P2 t.
    assert (One : forall u,
               exists rest,
                 snd (update_graph E (Some symbol) (Some start_date) (Some end_date) u)
                 = u ++ HttpGet (url_history symbol period1 period2) headers None :: rest
                 /\ filter is_request rest = [])
      by (intros u; apply update_graph_request; assumption).
    assert (First :
              filter is_request
                (new_events t
                   (snd (update_graph E (Some symbol) (Some start_date)
                           (Some end_date) t)))
              = [HttpGet (url_history symbol period1 period2) headers None]).
    { destruct (One t) as (rest & -> & R).
      rewrite new_events_app. simpl. rewrite R. reflexivity. }
    split; [exact First|]. split; [|split; [|reflexivity]].
    + unfold sends_one_request. rewrite First. reflexivity.
    + clear First. simpl. unfold callback, bind, ret. simpl.
      destruct (One t) as (rest1 & H1 & R1).
      destruct (update_graph E (Some symbol) (Some start_date) (Some end_date) t)
        as [a1 t1]. simpl in H1. subst t1.
      destruct (One (t ++ HttpGet (url_history symbol period1 period2) headers None
                       :: rest1))
        as (rest2 & H2 & R2).
      destruct (update_graph E (Some symbol) (Some start_date) (Some end_date)
                  (t ++ HttpGet (url_history symbol period1 period2) headers None
                     :: rest1))
        as [a2 t2]. simpl in H2. subst t2. simpl.
      rewrite <- app_assoc, new_events_app. simpl.
      rewrite filter_app. simpl. rewrite R1, R2. reflexivity.
  - intros ex t H.
    rewrite (@update_graph_no_period E symbol start_date end_date t ex) by assumption.
    apply new_events_same.
Qed.

Lemma update_graph_one_request_witness :
  filter is_request
    (snd (serve Sample.env
            [mk_inputs (Some "AAPL") (Some "2020-01-01") (Some "2020-02-01");
             mk_inputs (Some "AAPL") (Some "2020-01-01") (Some "2020-02-01")] []))
  = [HttpGet "https://finance.yahoo.com/quote/AAPL/history/?period1=1577836800&period2=1580515200"
       headers None;
     HttpGet "https://finance.yahoo.com/quote/AAPL/history/?period1=1577836800&period2=1580515200"
       headers None]
  /\ new_events []
       (snd (update_graph Sample.env
               (Some "AAPL") (Some "0001-01-01") (Some "2020-02-01") []))
     = [].
Proof.
  split.
  - exact (proj1 (proj2 (proj2
             (proj1 (@update_graph_one_request Sample.env
                       "AAPL" "2020-01-01" "2020-02-01"
                       (@nonempty_literal _ _) (@nonempty_literal _ _)
                       (@nonempty_literal _ _))
                1577836800 1580515200 eq_refl eq_refl [])))).
  - exact (proj2 (@update_graph_one_request Sample.env
                    "AAPL" "0001-01-01" "2020-02-01"
                    (@nonempty_literal _ _) (@nonempty_literal _ _)
                    (@nonempty_literal _ _))
             ValueError [] (or_introl eq_refl)).
Defined.

(** C10, as the code has it.  The claim as stated fails twice.  The empty
    string is not in the format, and the guard answers it with the
    placeholder figure: nothing is raised.  And a date in the format need
    not have a timestamp: the first day of year 1 parses, [timestamp()]
    raises on it, and no address is built. *)
Lemma bad_date_counterexample :
  strptime Sample.env "" "%Y-%m-%d" = None
  /\ ~ raises_ValueError_at_once Sample.env
         (Some "AAPL") (Some "") (Some "2020-02-01") []
  /\ update_graph Sample.env (Some "AAPL") (Some "") (Some "2020-02-01") []
     = (Ok empty_figure, [])
  /\ strptime Sample.env "0001-01-01" "%Y-%m-%d" = Some (mk_datetime 1 1 1)
  /\ strptime Sample.env "2020-02-01" "%Y-%m-%d" = Some (mk_datetime 2020 2 1)
  /\ update_graph Sample.env (Some "AAPL") (Some "0001-01-01") (Some "2020-02-01") []
     = (Raise ValueError, []).
Proof.
  split; [reflexivity|]. split; [|repeat split].
  unfold raises_ValueError_at_once. vm_compute. discriminate.
Qed.

(** C10, amended.  Past the guard, that is with a non-empty symbol and
    non-empty dates: a start date that [strptime] does not take in the
    format "%Y-%m-%d" makes [update_graph] raise [ValueError] with the trace
    untouched, so before any request, and so does such an end date once the
    start date has its timestamp; a date that parses and that [timestamp()]
    refuses raises what [timestamp()] raised, before any request as well.
    When both dates parse and convert, [period1] and [period2] are their
    timestamps cut to integers and the request goes to the address that
    spells both out in decimal after "period1=" and "&period2=".  A figure
    is only returned when both dates parsed and converted. *)
Theorem update_graph_dates (E : Env) (symbol start_date end_date : string)
    (t : trace) :
  symbol <> "" -> start_date <> "" -> end_date <> "" ->
  (strptime E start_date "%Y-%m-%d" = None ->
   raises_ValueError_at_once E (Some symbol) (Some start_date) (Some end_date) t)
  /\ (forall period1,
         period_of E start_date = Ok period1 ->
         strptime E end_date "%Y-%m-%d" = None ->
         raises_ValueError_at_once E (Some symbol) (Some start_date) (Some end_date) t)
  /\ (forall ex,
         period_of E start_date = Raise ex
         \/ (exists period1, period_of E start_date = Ok period1
                             /\ period_of E end_date = Raise ex) ->
         update_graph E (Some symbol) (Some start_date) (Some end_date) t
         = (Raise ex, t))
  /\ (forall d1 d2 ts1 ts2,
         strptime E start_date "%Y-%m-%d" = Some d1 ->
         timestamp E d1 = Ok ts1 ->
         strptime E end_date "%Y-%m-%d" = Some d2 ->
         timestamp E d2 = Ok ts2 ->
         let period1 := int ts1 in
         let period2 := int ts2 in
         exists rest,
           snd (update_graph E (Some symbol) (Some start_date) (Some end_date) t)
           = t ++ HttpGet (url_history symbol period1 period2) headers None :: rest
           /\ url_history symbol period1 period2
              = ("https://finance.yahoo.com/quote/" ++ symbol
                   ++ "/history/?period1=" ++ str period1
                   ++ "&period2=" ++ str period2)%string)
  /\ (forall fig t',
         update_graph E (Some symbol) (Some start_date) (Some end_date) t = (Ok fig, t') ->
         exists d1 d2 ts1 ts2,
           strptime E start_date "%Y-%m-%d" = Some d1
           /\ timestamp E d1 = Ok ts1
           /\ strptime E end_date "%Y-%m-%d" = Some d2
           /\ timestamp E d2 = Ok ts2).
Proof.
  intros N1 N2 N3. split; [|split; [|split; [|split]]].
  - intros H. apply update_graph_no_period; try assumption.
    left. apply period_of_bad_date. exact H.
  - intros period1 P1 H. apply update_graph_no_period; try assumption.
    right. exists period1. split; [exact P1|]. apply period_of_bad_date. exact H.
  - intros ex H. apply update_graph_no_period; assumption.
  - intros d1 d2 ts1 ts2 S1 T1 S2 T2 period1 period2.
    destruct (@update_graph_request E symbol start_date end_date t period1 period2)
      as (rest & H & _); try assumption.
    + unfold period_of. rewrite S1, T1. reflexivity.
    + unfold period_of. rewrite S2, T2. reflexivity.
    + exists rest. split; [exact H | reflexivity].
  - intros fig t' H. apply update_graph_inv in H; try assumption.
    destruct H as (url & page & raw & ds & S & _).
    destruct S as [p1 p2 page tables raw P1 P2 _ _ _].
    apply period_of_Ok in P1, P2.
    destruct P1 as (d1 & ts1 & S1 & T1 & _), P2 as (d2 & ts2 & S2 & T2 & _).
    exists d1, d2, ts1, ts2. repeat split; assumption.
Qed.

Lemma update_graph_dates_witness :
  raises_ValueError_at_once Sample.env
    (Some "AAPL") (Some "2020-02-30") (Some "2020-03-01") []
  /\ raises_ValueError_at_once Sample.env
       (Some "AAPL") (Some "2020-03-01") (Some "tomorrow") []
  /\ update_graph Sample.env (Some "AAPL") (Some "2020-01-01") (Some "0001-01-01") []
     = (Raise ValueError, [])
  /\ exists rest,
      snd (update_graph Sample.env
             (Some "AAPL") (Some "2020-01-01") (Some "2020-02-01") [])
      = HttpGet "https://finance.yahoo.com/quote/AAPL/history/?period1=1577836800&period2=1580515200"
          headers None :: rest.
Proof.
  split; [|split; [|split]].
  - exact (proj1 (@update_graph_dates Sample.env "AAPL" "2020-02-30" "2020-03-01" []
                    (@nonempty_literal _ _) (@nonempty_literal _ _) (@nonempty_literal _ _))
             eq_refl).
  - exact (proj1 (proj2
             (@update_graph_dates Sample.env "AAPL" "2020-03-01" "tomorrow" []
                (@nonempty_literal _ _) (@nonempty_literal _ _) (@nonempty_literal _ _)))
             1583020800 eq_refl eq_refl).
  - exact (proj1 (proj2 (proj2
             (@update_graph_dates Sample.env "AAPL" "2020-01-01" "0001-01-01" []
                (@nonempty_literal _ _) (@nonempty_literal _ _) (@nonempty_literal _ _))))
             ValueError
             (or_intror (ex_intro _ 1577836800 (conj eq_refl eq_refl)))).
  - destruct (proj1 (proj2 (proj2 (proj2
               (@update_graph_dates Sample.env "AAPL" "2020-01-01" "2020-02-01" []
                  (@nonempty_literal _ _) (@nonempty_literal _ _)
                  (@nonempty_literal _ _)))))
               (mk_datetime 2020 1 1) (mk_datetime 2020 2 1)
               (inject_Z 1577836800) (inject_Z 1580515200)
               eq_refl eq_refl eq_refl eq_refl)
      as (rest & H & _).
    exists rest. exact H.
Defined.

(** ** The life of the two tables *)

Lemma process_trace (E : Env) (requests : list inputs) :
  exists rest,
    snd (process E requests []) = HttpGet url_stocks headers None :: rest
    /\ filter (is_get url_stocks) rest = [].
Proof.
  unfold process, bind at 1.
  destruct (load_module_events E []) as (rest0 & H0 & R0).
  destruct (load_module E []) as [[g|ex] t0]; simpl in H0; subst t0.
  - destruct (serve_events E requests (HttpGet url_stocks headers None :: rest0))
      as (new & H & F).
    unfold bind, ret.
    destruct (serve E requests (HttpGet url_stocks headers None :: rest0))
      as [[answers|ex] t1]; simpl in *; subst t1;
      exists (rest0 ++ new);
      (split; [reflexivity|]);
      rewrite filter_app, F, (no_request_no_get url_stocks rest0 R0); reflexivity.
  - exists rest0. split; [reflexivity|].
    apply no_request_no_get. exact R0.
Qed.

(** C4.  In every run of the process, whatever the inputs that follow, the
    first library call is the request for the ticker page and it is the only
    request for that page: the trace holds exactly one.  No call of
    [update_graph], at any inputs and after any history, sends one, and
    neither does serving any sequence of inputs. *)
Theorem stocks_fetched_once (E : Env) (requests : list inputs) :
  (exists rest,
      snd (process E requests []) = HttpGet url_stocks headers None :: rest
      /\ filter (is_get url_stocks) rest = [])
  /\ length (filter (is_get url_stocks) (snd (process E requests []))) = 1%nat
  /\ (forall symbol start_date end_date t,
         filter (is_get url_stocks)
           (new_events t (snd (update_graph E symbol start_date end_date t))) = [])
  /\ (forall t,
         filter (is_get url_stocks) (new_events t (snd (serve E requests t))) = []).
Proof.
  split; [apply process_trace|]. split; [|split].
  - destruct (process_trace E requests) as (rest & -> & F).
    simpl. rewrite F. reflexivity.
  - intros symbol start_date end_date t.
    destruct (update_graph_events E symbol start_date end_date t) as (new & -> & F).
    rewrite new_events_app. exact F.
  - intros t. destruct (serve_events E requests t) as (new & -> & F).
    rewrite new_events_app. exact F.
Qed.

(** C3, as the code has it.  The claim as stated fails for the ticker list: a
    user interaction does not fetch it again, and a run with two
    interactions has fetched it once. *)
Lemma stocks_recomputed_counterexample :
  ~ refetches_stocks Sample.env
      (mk_inputs (Some "AAPL") (Some "2020-01-01") (Some "2020-02-01"))
      (snd (load_module Sample.env []))
  /\ length (filter (is_get url_stocks)
               (snd (process Sample.env
                       [mk_inputs (Some "AAPL") (Some "2020-01-01") (Some "2020-02-01");
                        mk_inputs (Some "TSLA") (Some "2020-01-01") (Some "2020-02-01")]
                       [])))
     = 1%nat.
Proof.
  split; [|reflexivity].
  intros (hdrs & timeout & I). vm_compute in I.
  destruct I as [I | [I | []]]; discriminate I.
Qed.

(** C3, amended.  The ticker list is computed once, when the module is
    loaded, and is what the process holds afterwards whatever the
    interactions; no interaction fetches it again.  The price-history table
    is made anew in every call that returns a figure: the call sends its own
    request, parses the page it got, and draws the figure from that table;
    what it adds to the trace is this request and this parse. *)
Theorem tables_lifetime (E : Env) (requests : list inputs) :
  (forall g answers t',
      process E requests [] = (Ok (g, answers), t') ->
      exists t0, load_module E [] = (Ok g, t0)
                 /\ fst (load_stocks E []) = Ok (stocks g)
                 /\ length answers = length requests)
  /\ (forall i t, ~ refetches_stocks E i t)
  /\ (forall symbol start_date end_date t fig t',
         symbol <> "" -> start_date <> "" -> end_date <> "" ->
         update_graph E (Some symbol) (Some start_date) (Some end_date) t = (Ok fig, t') ->
         exists url page raw ds,
           scrapes E t symbol start_date end_date url page raw
           /\ fits E raw ds
           /\ fig = figure_of E symbol raw ds
           /\ new_events t t' = [HttpGet url headers None; ReadHtml page]).
Proof.
  split; [|split].
  - intros g answers t'. unfold process, bind at 1.
    destruct (load_module E []) as [[g0|ex] t0] eqn:L; [|discriminate].
    destruct (serve_returns E requests t0) as (answers0 & S & Len).
    unfold bind, ret.
    destruct (serve E requests t0) as [[answers1|ex] t1]; [|discriminate].
    simpl in S. injection S as ->. intros H. injection H as <- <- <-.
    exists t0. split; [reflexivity|]. split; [|exact Len].
    unfold load_module, bind, ret in L.
    destruct (load_stocks E []) as [[l|ex] t2]; [|discriminate L].
    injection L as <- _. reflexivity.
  - intros i t (hdrs & timeout & I). unfold callback in I.
    destruct (update_graph_events E (in_symbol i) (in_start i) (in_end i) t)
      as (new & H & F).
    rewrite H, new_events_app in I.
    apply (In_filtered_out _ _ _ F) in I. discriminate I.
  - intros symbol start_date end_date t fig t' N1 N2 N3 H.
    apply update_graph_inv in H; try assumption.
    destruct H as (url & page & raw & ds & S & F & -> & ->).
    exists url, page, raw, ds. rewrite new_events_app. repeat split; try assumption; apply F.
Qed.

Lemma tables_lifetime_witness :
  exists url page raw ds,
    scrapes Sample.env [] "AAPL" "2020-01-01" "2020-02-01" url page raw
    /\ fits Sample.env raw ds
    /\ new_events []
         [HttpGet (url_history "AAPL" 1577836800 1580515200)
            headers None; ReadHtml "history"]
       = [HttpGet url headers None; ReadHtml page].
Proof.
  destruct (proj2 (proj2 (tables_lifetime Sample.env []))
              "AAPL" "2020-01-01" "2020-02-01" []
              (figure_of Sample.env "AAPL" (Sample.history_page "72")
                 [Some 1578009600000000000; Some 1577923200000000000])
              [HttpGet (url_history "AAPL" 1577836800 1580515200)
                 headers None; ReadHtml "history"]
              (@nonempty_literal _ _) (@nonempty_literal _ _) (@nonempty_literal _ _)
              eq_refl)
    as (url & page & raw & ds & S & F & _ & N).
  exists url, page, raw, ds. repeat split; try assumption; apply F.
Defined.

(** ** Further properties of the script *)

(** *** [common_layout] *)

(** X1.  [common_layout] keeps the traces and the title of a figure and
    fixes everything else of the layout: applying it twice is applying it
    once, and two figures with the same traces and title come out equal
    whatever size, centring or template they had before. *)
Theorem common_layout_settles (fig : Figure) :
  common_layout (common_layout fig) = common_layout fig
  /\ fig_data (common_layout fig) = fig_data fig
  /\ title (fig_layout (common_layout fig)) = title (fig_layout fig)
  /\ (forall other,
         fig_data other = fig_data fig ->
         title (fig_layout other) = title (fig_layout fig) ->
         common_layout other = common_layout fig).
Proof.
  destruct fig as [traces [ti tx w h te]]. repeat split.
  intros [traces' [ti' tx' w' h' te']]. simpl. intros -> ->. reflexivity.
Qed.

Lemma common_layout_settles_witness :
  common_layout
    (mk_figure [] (mk_layout (Some "Prices") None (Some 600) (Some 400) (Some "ggplot2")))
  = common_layout
      (mk_figure [] (mk_layout (Some "Prices") (Some (1 # 4)%Q) None (Some 10) None)).
Proof.
  apply (proj2 (proj2 (proj2
           (common_layout_settles
              (mk_figure []
                 (mk_layout (Some "Prices") (Some (1 # 4)%Q) None (Some 10) None))))));
    reflexivity.
Defined.

(** *** The placeholder *)

(** X2.  The placeholder figure is what [update_graph] answers exactly when
    an input is missing: with all three inputs present it is never returned,
    whatever the libraries do. *)
Theorem placeholder_iff_missing_input (E : Env) (symbol start_date end_date : pyval)
    (t : trace) :
  (exists t', update_graph E symbol start_date end_date t = (Ok empty_figure, t'))
  <-> (truthy symbol = false \/ truthy start_date = false \/ truthy end_date = false).
Proof.
  split.
  - intros (t' & H).
    destruct (truthy symbol) eqn:T1; [|auto].
    destruct (truthy start_date) eqn:T2; [|auto].
    destruct (truthy end_date) eqn:T3; [|auto].
    apply truthy_inv in T1, T2, T3.
    destruct T1 as (sy & -> & N1), T2 as (sd & -> & N2), T3 as (ed & -> & N3).
    apply update_graph_inv in H; try assumption.
    destruct H as (url & page & raw & ds & _ & _ & H & _).
    apply (f_equal (fun f => title (fig_layout f))) in H. discriminate H.
  - intros H. exists t. apply update_graph_guard. exact H.
Qed.

Lemma placeholder_iff_missing_input_witness :
  exists t',
    update_graph Sample.env (Some "AAPL") (Some "2020-01-01") (Some "") [] 
    = (Ok empty_figure, t').
Proof.
  apply (proj2 (placeholder_iff_missing_input Sample.env
                  (Some "AAPL") (Some "2020-01-01") (Some "") [])).
  right. right. reflexivity.
Defined.

(** *** Loading the ticker list *)

Lemma getitem_only (A : Type) (label : string) (df : frame A) (col : A) :
  getitem label df = Ok col <-> only_column label col df.
Proof.
  unfold getitem, only_column. split.
  - induction df as [|[l c] df IH]; simpl; [discriminate|].
    unfold has_label at 1. simpl.
    destruct (String.eqb_spec l label) as [-> | N].
    + destruct (filter (has_label label) df) as [|c1 [|c2 rest]] eqn:F;
        [|discriminate..].
      intros H. injection H as <-.
      exists [], df. split; [reflexivity|]. split; [intros []|].
      intros I. apply in_map_iff in I. destruct I as ([l' c'] & L & I).
      simpl in L. subst l'.
      assert (J : In (label, c') (filter (has_label label) df)).
      { apply filter_In. split; [exact I|]. unfold has_label. simpl.
        apply String.eqb_refl. }
      rewrite F in J. destruct J.
    + intros H. destruct (IH H) as (before & after & -> & NB & NA).
      exists ((l, c) :: before), after. split; [reflexivity|].
      split; [|exact NA]. simpl. intros [L | L]; [exact (N L) | exact (NB L)].
  - intros (before & after & -> & NB & NA).
    assert (Out : forall l : frame A,
               ~ In label (labels l) -> filter (has_label label) l = []).
    { induction l as [|[l1 c1] l IH]; simpl; [reflexivity|].
      intros N. unfold has_label at 1. simpl.
      destruct (String.eqb_spec l1 label) as [-> | _].
      - exfalso. apply N. left. reflexivity.
      - apply IH. intros I. apply N. right. exact I. }
    rewrite filter_app. simpl. unfold has_label at 2. simpl.
    rewrite String.eqb_refl, (Out before NB), (Out after NA). reflexivity.
Qed.

Lemma getitem_missing (A : Type) (label : string) (df : frame A) :
  ~ In label (labels df) -> getitem label df = Raise KeyError.
Proof.
  intros N. unfold getitem.
  assert (F : filter (has_label label) df = []).
  { induction df as [|[l c] df IH]; simpl; [reflexivity|].
    unfold has_label at 1. simpl.
    destruct (String.eqb_spec l label) as [-> | _].
    - exfalso. apply N. left. reflexivity.
    - apply IH. intros I. apply N. right. exact I. }
  rewrite F. reflexivity.
Qed.

(** X3.  Loading the ticker list succeeds exactly when the request for
    [url_stocks] is answered with a page that has a table, and the first
    table has one column labelled Symbol: the list is the cells of that
    column, the other columns and the other tables play no part, and the
    library calls made are that one request and one parse. *)
Theorem load_stocks_spec (E : Env) (t t' : trace) (symbols : list cell) :
  load_stocks E t = (Ok symbols, t')
  <-> exists page table others,
      requests_get E t url_stocks headers = Ok page
      /\ read_html E page = Ok (table :: others)
      /\ only_column "Symbol" symbols table
      /\ t' = t ++ [HttpGet url_stocks headers None; ReadHtml page].
Proof.
  unfold load_stocks, get_text, pd_read_html, bind, lift, emit, get_trace. simpl.
  split.
  - destruct (requests_get E t url_stocks headers) as [page|] eqn:R; [|discriminate].
    destruct (read_html E page) as [[|table others]|] eqn:P; simpl; try discriminate.
    destruct (getitem "Symbol" table) as [col|] eqn:G; [|discriminate].
    intros H. injection H as <- <-.
    exists page, table, others. rewrite <- app_assoc.
    split; [reflexivity|]. split; [exact P|].
    split; [apply getitem_only; exact G | reflexivity].
  - intros (page & table & others & -> & -> & O & ->). simpl.
    apply getitem_only in O. rewrite O, <- app_assoc. reflexivity.
Qed.

Lemma load_stocks_spec_witness :
  load_stocks Sample.env []
  = (Ok [CStr "NVDA"; CStr "AAPL"; CStr "TSLA"],
     [] ++ [HttpGet url_stocks headers None; ReadHtml "most-active"]).
Proof.
  apply (proj2 (load_stocks_spec Sample.env [] _ _)).
  exists "most-active", Sample.stocks_page, [].
  split; [reflexivity|]. split; [reflexivity|]. split; [|reflexivity].
  exists [], (skipn 1 Sample.stocks_page).
  split; [reflexivity|]. split; [intros [] | ].
  simpl. intros [H | [H | []]]; discriminate H.
Defined.

(** X4.  Loading the ticker list has no error handling: an exception of the
    request, or of the parser, comes out as it is; a page with an empty list
    of tables is an [IndexError]; a first table without a Symbol column is a
    [KeyError].  The request has been sent in every case. *)
Theorem load_stocks_raises (E : Env) (t : trace) :
  (forall ex,
      requests_get E t url_stocks headers = Raise ex ->
      load_stocks E t = (Raise ex, t ++ [HttpGet url_stocks headers None]))
  /\ (forall page,
         requests_get E t url_stocks headers = Ok page ->
         (forall ex,
             read_html E page = Raise ex ->
             load_stocks E t
             = (Raise ex, t ++ [HttpGet url_stocks headers None; ReadHtml page]))
         /\ (read_html E page = Ok [] ->
             load_stocks E t
             = (Raise IndexError,
                t ++ [HttpGet url_stocks headers None; ReadHtml page]))
         /\ (forall table others,
                read_html E page = Ok (table :: others) ->
                ~ In "Symbol" (labels table) ->
                load_stocks E t
                = (Raise KeyError,
                   t ++ [HttpGet url_stocks headers None; ReadHtml page]))).
Proof.
  unfold load_stocks, get_text, pd_read_html, bind, lift, emit, get_trace. simpl.
  split.
  - intros ex ->. reflexivity.
  - intros page ->. rewrite <- app_assoc. simpl. split; [|split].
    + intros ex ->. reflexivity.
    + intros ->. reflexivity.
    + intros table others -> N. simpl.
      rewrite (getitem_missing "Symbol" table N). reflexivity.
Qed.

Lemma load_stocks_raises_witness :
  load_stocks redesigned_site []
  = (Raise KeyError, [HttpGet url_stocks headers None; ReadHtml "most-active"])
  /\ load_stocks unreachable_site []
     = (Raise RequestException, [HttpGet url_stocks headers None]).
Proof.
  split.
  - apply (proj2 (proj2 (proj2 (load_stocks_raises redesigned_site [])
                           "most-active" eq_refl))
             (Sample.history_page "72") [] eq_refl).
    simpl. intros H.
    repeat (destruct H as [H | H]; [discriminate H|]). exact H.
  - exact (proj1 (load_stocks_raises unreachable_site []) RequestException eq_refl).
Defined.

(** X5.  When loading the ticker list raises, the module is not loaded and
    the process ends there with that exception, whatever inputs were to
    come: the only request it has sent is the one for the ticker page. *)
Theorem module_load_failure (E : Env) (requests : list inputs) (ex : exn) :
  fst (load_stocks E []) = Raise ex ->
  process E requests [] = (Raise ex, snd (load_stocks E []))
  /\ filter is_request (snd (process E requests []))
     = [HttpGet url_stocks headers None].
Proof.
  intros H.
  assert (P : process E requests [] = (Raise ex, snd (load_stocks E []))).
  { unfold process, load_module, bind.
    destruct (load_stocks E []) as [[l|e] t0]; simpl in *;
      [discriminate H | injection H as ->; reflexivity]. }
  split; [exact P|]. rewrite P. simpl.
  destruct (load_module_events E []) as (rest & L & R).
  assert (S : snd (load_module E []) = snd (load_stocks E [])).
  { unfold load_module, bind, ret.
    destruct (load_stocks E []) as [[l|e] t0]; reflexivity. }
  rewrite <- S, L. simpl. rewrite R. reflexivity.
Qed.

Lemma module_load_failure_witness :
  process unreachable_site
    [mk_inputs (Some "AAPL") (Some "2020-01-01") (Some "2020-02-01")] []
  = (Raise RequestException, [HttpGet url_stocks headers None]).
Proof.
  exact (proj1 (@module_load_failure unreachable_site
                  [mk_inputs (Some "AAPL") (Some "2020-01-01") (Some "2020-02-01")]
                  RequestException eq_refl)).
Defined.

(** *** The callback keeps nothing between calls *)

(** X6.  What [update_graph] answers and which library calls it makes depend
    on what happened before only through the answers of the site: at two
    histories where the site answers alike, the same inputs give the same
    result and the same calls. *)
Theorem update_graph_stateless (E : Env) (symbol start_date end_date : pyval)
    (t1 t2 : trace) :
  (forall url, requests_get E t1 url headers = requests_get E t2 url headers) ->
  fst (update_graph E symbol start_date end_date t1)
  = fst (update_graph E symbol start_date end_date t2)
  /\ new_events t1 (snd (update_graph E symbol start_date end_date t1))
     = new_events t2 (snd (update_graph E symbol start_date end_date t2)).
Proof.
  intros H. unfold update_graph.
  destruct (negb (truthy symbol) || negb (truthy start_date) || negb (truthy end_date)).
  { simpl. rewrite !new_events_same. split; reflexivity. }
  unfold history_table, datetime_strptime, get_text, pd_read_html, history_figure,
    sized_figure, bind, lift, emit, get_trace, ret, raise.
  destruct (strptime E (text_of start_date) "%Y-%m-%d") as [d1|];
    [|simpl; rewrite !new_events_same; split; reflexivity].
  destruct (timestamp E d1) as [ts1|];
    [|simpl; rewrite !new_events_same; split; reflexivity].
  destruct (strptime E (text_of end_date) "%Y-%m-%d") as [d2|];
    [|simpl; rewrite !new_events_same; split; reflexivity].
  destruct (timestamp E d2) as [ts2|];
    [|simpl; rewrite !new_events_same; split; reflexivity].
  cbv beta iota. rewrite H.
  destruct (requests_get E t2 _ headers) as [page|];
    [|simpl; rewrite !new_events_app; split; reflexivity].
  rewrite <- !app_assoc.
  destruct (read_html E page) as [tables|];
    [|simpl; rewrite !new_events_app; split; reflexivity].
  destruct (first_table tables) as [raw|];
    [|simpl; rewrite !new_events_app; split; reflexivity].
  destruct (set_columns history_columns raw) as [renamed|];
    [|simpl; rewrite !new_events_app; split; reflexivity].
  destruct (getitem "Date" _) as [dates|];
    [|simpl; rewrite !new_events_app; split; reflexivity].
  destruct (to_datetime E dates) as [ds|];
    [|simpl; rewrite !new_events_app; split; reflexivity].
  destruct (getitem "Date" _) as [x|];
    [|simpl; rewrite !new_events_app; split; reflexivity].
  destruct (getitem "Adj Close" _) as [y|];
    simpl; rewrite !new_events_app; split; reflexivity.
Qed.

Lemma update_graph_stateless_witness :
  fst (update_graph Sample.env (Some "AAPL") (Some "2020-01-01") (Some "2020-02-01") [])
  = fst (update_graph Sample.env (Some "AAPL") (Some "2020-01-01") (Some "2020-02-01")
           [ReadHtml "most-active"]).
Proof.
  apply (@update_graph_stateless Sample.env
           (Some "AAPL") (Some "2020-01-01") (Some "2020-02-01")
           [] [ReadHtml "most-active"]).
  intros url. reflexivity.
Defined.

(** *** What is sent *)

Lemma no_request_expected (l : trace) :
  filter is_request l = [] -> Forall expected_event l.
Proof.
  induction l as [|[u h o | p] l IH]; simpl; intros H.
  - constructor.
  - discriminate H.
  - constructor; [exact I | exact (IH H)].
Qed.

Lemma update_graph_expected (E : Env) (symbol start_date end_date : pyval)
    (t : trace) :
  exists new,
    snd (update_graph E symbol start_date end_date t) = t ++ new
    /\ Forall expected_event new.
Proof.
  destruct (truthy symbol) eqn:T1;
    [|exists []; rewrite update_graph_guard, app_nil_r by auto; split; constructor].
  destruct (truthy start_date) eqn:T2;
    [|exists []; rewrite update_graph_guard, app_nil_r by auto; split; constructor].
  destruct (truthy end_date) eqn:T3;
    [|exists []; rewrite update_graph_guard, app_nil_r by auto; split; constructor].
  apply truthy_inv in T1, T2, T3.
  destruct T1 as (sy & -> & N1), T2 as (sd & -> & N2), T3 as (ed & -> & N3).
  rewrite update_graph_trace by assumption.
  destruct (period_of E sd) as [p1|ex1] eqn:P1;
    [|exists []; rewrite (@history_table_no_period E sy sd ed t ex1), app_nil_r by auto;
      split; constructor].
  destruct (period_of E ed) as [p2|ex2] eqn:P2;
    [|exists []; rewrite (@history_table_no_period E sy sd ed t ex2), app_nil_r by eauto;
      split; constructor].
  destruct (@history_table_requests E sy sd ed t p1 p2 P1 P2) as (rest & -> & R).
  eexists. split; [reflexivity|].
  constructor; [|apply no_request_expected; exact R].
  split; [reflexivity|]. split; reflexivity.
Qed.

Lemma serve_expected (E : Env) (requests : list inputs) (t : trace) :
  exists new,
    snd (serve E requests t) = t ++ new /\ Forall expected_event new.
Proof.
  revert t. induction requests as [|i rest IH]; intros t.
  - exists []. rewrite app_nil_r. split; constructor.
  - simpl. unfold callback.
    destruct (update_graph_expected E (in_symbol i) (in_start i) (in_end i) t)
      as (new1 & H1 & F1).
    destruct (update_graph E (in_symbol i) (in_start i) (in_end i) t)
      as [answer t1]. simpl in H1. subst t1.
    destruct (IH (t ++ new1)) as (new2 & H2 & F2).
    exists (new1 ++ new2). unfold bind, ret.
    destruct (serve E rest (t ++ new1)) as [[answers|ex] t2]; simpl in *;
      subst t2; rewrite app_assoc; (split; [reflexivity|]);
      apply Forall_app; split; assumption.
Qed.

(** X7.  Every library call of a run of the process, and of any single call
    of [update_graph], is as the script writes it: each request goes to an
    address under https://finance.yahoo.com/, carries the User-Agent header
    of line 21 and nothing else, and sets no timeout. *)
Theorem requests_as_expected (E : Env) (requests : list inputs) :
  Forall expected_event (snd (process E requests []))
  /\ (forall symbol start_date end_date t,
         Forall expected_event
           (new_events t (snd (update_graph E symbol start_date end_date t)))).
Proof.
  split.
  - unfold process, bind at 1.
    destruct (load_module_events E []) as (rest0 & H0 & R0).
    assert (F0 : Forall expected_event (HttpGet url_stocks headers None :: rest0)).
    { constructor; [|apply no_request_expected; exact R0].
      split; [reflexivity|]. split; reflexivity. }
    destruct (load_module E []) as [[g|ex] t0]; simpl in H0; subst t0; [|exact F0].
    destruct (serve_expected E requests (HttpGet url_stocks headers None :: rest0))
      as (new & H & F).
    unfold bind, ret.
    destruct (serve E requests (HttpGet url_stocks headers None :: rest0))
      as [[answers|ex] t1]; simpl in *; subst t1;
      apply (Forall_app expected_event (HttpGet url_stocks headers None :: rest0) new);
      split; assumption.
  - intros symbol start_date end_date t.
    destruct (update_graph_expected E symbol start_date end_date t) as (new & -> & F).
    rewrite new_events_app. exact F.
Qed.

(** *** The address *)

Lemma append_inv_head (p x y : string) : (p ++ x)%string = (p ++ y)%string -> x = y.
Proof.
  induction p as [|c p IH]; simpl; intros H; [exact H|].
  injection H as H. exact (IH H).
Qed.

Lemma chars_append (x y : string) :
  list_ascii_of_string (x ++ y)
  = list_ascii_of_string x ++ list_ascii_of_string y.
Proof.
  induction x as [|c x IH]; simpl; [reflexivity|]. rewrite IH. reflexivity.
Qed.

Lemma chars_inj (x y : string) :
  list_ascii_of_string x = list_ascii_of_string y -> x = y.
Proof.
  intros H. rewrite <- (string_of_list_ascii_of_string x),
              <- (string_of_list_ascii_of_string y), H. reflexivity.
Qed.

(** Two texts cut at the last occurrence of a character are cut alike. *)
Lemma cut_at_last (c : ascii) (x x' y y' : list ascii) :
  x ++ c :: y = x' ++ c :: y' -> ~ In c y -> ~ In c y' -> x = x' /\ y = y'.
Proof.
  revert x'. induction x as [|a x IH]; intros [|a' x'] H Ny Ny'; simpl in H.
  - injection H as H. split; [reflexivity | exact H].
  - injection H as <- H. exfalso. apply Ny. rewrite H.
    apply in_or_app. right. left. reflexivity.
  - injection H as -> H. exfalso. apply Ny'. rewrite <- H.
    apply in_or_app. right. left. reflexivity.
  - injection H as -> H. destruct (IH x' H Ny Ny') as [-> ->].
    split; reflexivity.
Qed.

Lemma uint_chars (d : Decimal.uint) (c : ascii) :
  In c (list_ascii_of_string (NilEmpty.string_of_uint d)) -> In c numeral_chars.
Proof.
  induction d; simpl; intros H; try contradiction;
    destruct H as [<- | H]; try exact (IHd H);
    unfold numeral_chars; simpl; tauto.
Qed.

Lemma str_chars (n : Z) (c : ascii) :
  In c (list_ascii_of_string (str n)) -> In c numeral_chars.
Proof.
  unfold str. destruct (Z.to_int n) as [d | d]; simpl.
  - destruct d; try apply uint_chars.
    simpl. intros [<- | []]. unfold numeral_chars. simpl. tauto.
  - intros [<- | H]; [unfold numeral_chars; simpl; tauto|].
    revert H. destruct d; try apply uint_chars.
    simpl. intros [<- | []]. unfold numeral_chars. simpl. tauto.
Qed.

Lemma str_inj (n m : Z) : str n = str m -> n = m.
Proof.
  unfold str. intros H.
  assert (Nn : forall z, Z.to_int z <> Decimal.Pos Decimal.Nil
                         /\ Z.to_int z <> Decimal.Neg Decimal.Nil).
  { intros [|p|p]; simpl; split; try discriminate;
      intros Q; injection Q as Q;
      exact (DecimalPos.Unsigned.to_uint_nonnil p Q). }
  apply (f_equal NilZero.int_of_string) in H.
  rewrite !NilZero.isi in H by apply Nn.
  injection H as H. apply (f_equal Z.of_int) in H.
  rewrite !DecimalZ.of_to in H. exact H.
Qed.

Lemma two_cuts (c1 c2 : ascii) (S S' M A A' N B B' : list ascii) :
  (S ++ M) ++ c1 :: A ++ c2 :: N ++ B = (S' ++ M) ++ c1 :: A' ++ c2 :: N ++ B' ->
  ~ In c1 A -> ~ In c1 A' -> ~ In c2 (N ++ B) -> ~ In c2 (N ++ B') ->
  S = S' /\ A = A' /\ B = B'.
Proof.
  intros H NA NA' NB NB'.
  change ((S ++ M) ++ (c1 :: A) ++ c2 :: N ++ B
          = (S' ++ M) ++ (c1 :: A') ++ c2 :: N ++ B') in H.
  rewrite (app_assoc (S ++ M) (c1 :: A) (c2 :: N ++ B)),
    (app_assoc (S' ++ M) (c1 :: A') (c2 :: N ++ B')) in H.
  apply cut_at_last in H; [|assumption..].
  destruct H as [H HB]. apply app_inv_head in HB.
  apply cut_at_last in H; [|assumption..].
  destruct H as [H HA]. apply app_inv_tail in H.
  repeat split; assumption.
Qed.

(** X8.  The address of line 100 determines what it was built from: two
    calls ask for the same address only if they have the same symbol and the
    same two timestamps, whatever characters the symbol is made of. *)
Theorem url_history_injective (symbol symbol' : string) (p1 p2 q1 q2 : Z) :
  url_history symbol p1 p2 = url_history symbol' q1 q2 ->
  symbol = symbol' /\ p1 = q1 /\ p2 = q2.
Proof.
  intros H. unfold url_history in H. apply append_inv_head in H.
  apply (f_equal list_ascii_of_string) in H. rewrite !chars_append in H.
  assert (Amp : forall n, ~ In "&"%char (list_ascii_of_string "period2=" ++
                                          list_ascii_of_string (str n))).
  { intros n I. apply in_app_or in I. destruct I as [I | I].
    - simpl in I. repeat (destruct I as [I | I]; [discriminate I|]). exact I.
    - apply str_chars in I. unfold numeral_chars in I. simpl in I.
      repeat (destruct I as [I | I]; [discriminate I|]). exact I. }
  assert (Eq : forall n, ~ In "="%char (list_ascii_of_string (str n))).
  { intros n I. apply str_chars in I. unfold numeral_chars in I. simpl in I.
    repeat (destruct I as [I | I]; [discriminate I|]). exact I. }
  destruct (@two_cuts "="%char "&"%char
              (list_ascii_of_string symbol) (list_ascii_of_string symbol')
              (list_ascii_of_string "/history/?period1")
              (list_ascii_of_string (str p1)) (list_ascii_of_string (str q1))
              (list_ascii_of_string "period2=")
              (list_ascii_of_string (str p2)) (list_ascii_of_string (str q2)))
    as (HS & HA & HB); try apply Amp; try apply Eq.
  - rewrite <- !app_assoc. exact H.
  - apply chars_inj in HS, HA, HB. apply str_inj in HA, HB.
    repeat split; assumption.
Qed.

Lemma url_history_injective_witness :
  "AAPL" = "AAPL" /\ 1577836800 = 1577836800 /\ 1580515200 = 1580515200.
Proof.
  exact (@url_history_injective "AAPL" "AAPL" 1577836800 1580515200
           1577836800 1580515200 eq_refl).
Defined.

(** *** The figure the page starts with *)

(** X9.  Once the module is loaded, the figure the graph was laid out with
    is the very figure [update_graph] answers when an input is missing:
    clearing the symbol or a date shows the page as it started, and costs no
    library call. *)
Theorem cleared_input_restores_initial_figure (E : Env) (g : Globals)
    (t0 t1 t : trace) (symbol start_date end_date : pyval) :
  load_module E t0 = (Ok g, t1) ->
  truthy symbol = false \/ truthy start_date = false \/ truthy end_date = false ->
  update_graph E symbol start_date end_date t = (Ok (initial_figure g), t).
Proof.
  intros L H. rewrite update_graph_guard by exact H.
  unfold load_module, bind, ret in L.
  destruct (load_stocks E t0) as [[l|ex] t2]; [|discriminate L].
  injection L as <- _. reflexivity.
Qed.

Lemma cleared_input_restores_initial_figure_witness :
  update_graph Sample.env None (Some "2020-01-01") (Some "2020-02-01")
    [HttpGet url_stocks headers None; ReadHtml "most-active"]
  = (Ok (initial_figure
           (mk_globals [CStr "NVDA"; CStr "AAPL"; CStr "TSLA"] empty_figure)),
     [HttpGet url_stocks headers None; ReadHtml "most-active"]).
Proof.
  apply (@cleared_input_restores_initial_figure Sample.env
           (mk_globals [CStr "NVDA"; CStr "AAPL"; CStr "TSLA"] empty_figure)
           [] [HttpGet url_stocks headers None; ReadHtml "most-active"]).
  - reflexivity.
  - left. reflexivity.
Defined.
